(** * Verification of the dea-notebooks batch scripts

    Two scripts are embedded:
    - [AppendDamTimeHistoryParallel.py] (pipeline A, module [Dam]):
      chunk selection, per-polygon fullness calculation, observation filter,
      append to the per-polygon file;
    - [SICA_parallel.py] (pipeline B, module [SICA]): season label,
      multi-threshold reclassification, polygon filter.

    Python integers are [Z]; Python floats are modelled by exact rationals
    [Q] (rounding is not modelled); text is [string]. *)

From Stdlib Require Import ZArith QArith Lia Lqa List String Ascii DecimalString.
From stdpp Require Import gmap strings list.

Local Open Scope Z_scope.

(** ** Python built-ins used by both scripts *)
Module Py.

(** Exceptions that the modelled code can raise. *)
Inductive exn : Type :=
| ZeroDivisionError
| FileNotFoundError
| IndexError
| ValueError
| UnboundLocalError
| OSError (msg : string)
| LibraryError (msg : string).

(** Outcome of a statement or expression that may raise. *)
Inductive result (A : Type) : Type :=
| Ok (a : A)
| Raise (e : exn).
Arguments Ok {A} a.
Arguments Raise {A} e.

(** [slice.indices]: a bound [i] of a slice over a sequence of length [n];
    a negative bound counts from the end, and every bound is clamped. *)
Definition clamp_index (n i : Z) : Z :=
  if i <? 0 then Z.max (i + n) 0 else Z.min i n.

(** [l[start:stop]] with step 1; [None] is an omitted bound. *)
Definition slice {A : Type} (l : list A) (start stop : option Z) : list A :=
  let n := Z.of_nat (length l) in
  let lo := match start with Some i => clamp_index n i | None => 0 end in
  let hi := match stop with Some i => clamp_index n i | None => n end in
  firstn (Z.to_nat (hi - lo)) (skipn (Z.to_nat lo) l).

(** [s[start:stop]] on text. *)
Definition str_slice (s : string) (start stop : option Z) : string :=
  string_of_list_ascii (slice (list_ascii_of_string s) start stop).

(** [math.ceil(a / b)] for integers [a] and [b > 0], over exact division. *)
Definition ceil_div (a b : Z) : Z := - ((- a) / b).

(** [enumerate(l)], with integer positions. *)
Definition enumerate {A : Type} (l : list A) : list (Z * A) :=
  combine (map Z.of_nat (seq 0 (length l))) l.

(** The elements of [l] whose position, counted from the head, lies in
    [[a, b)]: the positions view of a slice, used to reason about it. *)
Fixpoint between {A : Type} (a b : Z) (l : list A) : list A :=
  match l with
  | [] => []
  | x :: l' =>
      if (a <=? 0) && (0 <? b) then x :: between (a - 1) (b - 1) l'
      else between (a - 1) (b - 1) l'
  end.

(** [l[i]]: a negative index counts from the end; out of range raises. *)
Definition index {A : Type} (l : list A) (i : Z) : result A :=
  let n := Z.of_nat (length l) in
  let k := if i <? 0 then i + n else i in
  if (k <? 0) || (n <=? k) then Raise IndexError
  else match nth_error l (Z.to_nat k) with
       | Some x => Ok x
       | None => Raise IndexError
       end.

(** [s.split(sep)] for a one-character separator: never an empty list. *)
Fixpoint split (sep : ascii) (s : string) : list string :=
  match s with
  | EmptyString => [EmptyString]
  | String c s' =>
      if Ascii.eqb c sep then EmptyString :: split sep s'
      else match split sep s' with
           | w :: ws => String c w :: ws
           | [] => [String c EmptyString]
           end
  end.

(** [zip(xs, ys, zs)]: stops with the shortest argument. *)
Fixpoint zip3 {A B C : Type} (xs : list A) (ys : list B) (zs : list C)
  : list (A * B * C) :=
  match xs, ys, zs with
  | x :: xs', y :: ys', z :: zs' => (x, y, z) :: zip3 xs' ys' zs'
  | _, _, _ => []
  end.

(** White space as [int] strips it: tab to carriage return, the
    separators 28-31 and the blank. *)
Definition is_space (c : ascii) : bool :=
  let n := nat_of_ascii c in
  ((9 <=? n)%nat && (n <=? 13)%nat) || ((28 <=? n)%nat && (n <=? 32)%nat).

Definition digit_of (c : ascii) : option Z :=
  let n := Z.of_nat (nat_of_ascii c) in
  if (48 <=? n) && (n <=? 57) then Some (n - 48) else None.

Fixpoint lstrip (l : list ascii) : list ascii :=
  match l with
  | c :: l' => if is_space c then lstrip l' else l
  | [] => []
  end.

Definition strip (l : list ascii) : list ascii := rev (lstrip (rev (lstrip l))).

(** The digits after the first one: single underscores may separate them. *)
Fixpoint int_digits (acc : Z) (l : list ascii) : option Z :=
  match l with
  | [] => Some acc
  | c :: l' =>
      if Ascii.eqb c "_" then
        match l' with
        | c' :: l'' =>
            match digit_of c' with
            | Some d => int_digits (10 * acc + d) l''
            | None => None
            end
        | [] => None
        end
      else
        match digit_of c with
        | Some d => int_digits (10 * acc + d) l'
        | None => None
        end
  end.

(** [int(s)] for text in base ten. *)
Definition int (s : string) : result Z :=
  match strip (list_ascii_of_string s) with
  | [] => Raise ValueError
  | c :: l =>
      let '(sign, ds) :=
        if Ascii.eqb c "-" then (-1, l)
        else if Ascii.eqb c "+" then (1, l) else (1, c :: l) in
      match ds with
      | [] => Raise ValueError
      | d :: ds' =>
          match digit_of d with
          | None => Raise ValueError
          | Some v =>
              match int_digits v ds' with
              | Some n => Ok (sign * n)
              | None => Raise ValueError
              end
          end
      end
  end.

(** [str(n)] for an integer. *)
Definition str (n : Z) : string := NilZero.string_of_int (Z.to_int n).

(** [range(start, start + count)] *)
Fixpoint zrange (start : Z) (count : nat) : list Z :=
  match count with
  | O => []
  | S count' => start :: zrange (start + 1) count'
  end.

(** The text made of the given lines, each followed by a line feed. *)
Fixpoint unlines (ls : list string) : string :=
  match ls with
  | [] => EmptyString
  | l :: ls' => (l ++ String "010" (unlines ls'))%string
  end.

(** Whether a text is free of line feeds. *)
Definition no_newline (s : string) : bool :=
  negb (existsb (Ascii.eqb "010") (list_ascii_of_string s)).

(** [a / b] on integers (true division), over exact rationals. *)
Definition truediv (a b : Z) : result Q :=
  if b =? 0 then Raise ZeroDivisionError else Ok (inject_Z a / inject_Z b)%Q.

(** [x < y] on numbers. *)
Definition Qltb (x y : Q) : bool := negb (Qle_bool y x).

(** *** Statements: state passing with exceptions *)

(** A statement over a state [S]: the state it leaves, and either the value
    it computes or the exception it raises. *)
Definition M (S A : Type) : Type := S -> S * result A.

#[export] Instance result_ret : MRet result := fun A a => Ok a.
#[export] Instance result_bind : MBind result := fun A B f r =>
  match r with Ok a => f a | Raise e => Raise e end.

#[export] Instance M_ret {S} : MRet (M S) := fun A a s => (s, Ok a).
#[export] Instance M_bind {S} : MBind (M S) := fun A B f c s =>
  match c s with
  | (s', Ok a) => f a s'
  | (s', Raise e) => (s', Raise e)
  end.

(** An expression that may raise, used as a statement. *)
Definition lift {S A} (r : result A) : M S A := fun s => (s, r).

(** [raise e] *)
Definition raise {S A} (e : exn) : M S A := fun s => (s, Raise e).

(** [try: body / except: handler] with a bare [except]: every exception of
    the body is handled, and the state changes the body made before raising
    are kept. *)
Definition try_except {S} (body handler : M S ()) : M S () := fun s =>
  match body s with
  | (s', Ok u) => (s', Ok u)
  | (s', Raise _) => handler s'
  end.

(** [for x in xs: body(x)]: an exception of an iteration ends the loop. *)
Fixpoint for_each {S A} (xs : list A) (body : A -> M S ()) : M S () :=
  match xs with
  | [] => mret ()
  | x :: xs' => body x ;; for_each xs' body
  end.

(** [[f(x) for x in xs]] where [f] may raise. *)
Fixpoint comprehension {A B} (f : A -> result B) (xs : list A) : result (list B) :=
  match xs with
  | [] => Ok []
  | x :: xs' => y ← f x; ys ← comprehension f xs'; Ok (y :: ys)
  end.

End Py.

(** ** Pipeline A: AppendDamTimeHistoryParallel.py *)
Module Dam.
Import Py.

(** [ChunkSize = ceil(len(ShapesList)/32) + 1] *)
Definition ChunkSize (count : Z) : Z := ceil_div count 32 + 1.

(** [shapes[(part - 1) * ChunkSize: part * ChunkSize]]: the slice of the
    opened collection, whose items are those of [ShapesList] in file order;
    a collection is sliced like a sequence. *)
Definition shapessubset {A : Type} (shapes : list A) (part : Z) : list A :=
  let cs := ChunkSize (Z.of_nat (length shapes)) in
  slice shapes (Some ((part - 1) * cs)) (Some (part * cs)).

(** The chunk as section 8 of the specification words it: the elements whose
    position lies in [[(index-1)*(ceil(count/32)+1), index*(ceil(count/32)+1))];
    positions of [enumerate] are already within [[0, count)]. *)
Definition spec_chunk {A : Type} (shapes : list A) (index : Z) : list A :=
  let count := Z.of_nat (length shapes) in
  let size := ceil_div count 32 + 1 in
  map snd (List.filter (fun px => ((index - 1) * size <=? fst px) && (fst px <? index * size))
                  (enumerate shapes)).


(** The worker indices of the fan-out: 1, 2, ..., 32. *)
Definition fan_out : list Z := map Z.of_nat (seq 1 32).

(** *** Data *)

(** A feature of the shapefile: [shapes['geometry']] (an exterior ring),
    [shapes['properties']['ID']] (as [format] prints it) and
    [shapes['properties']['area']]. *)
Record shape : Type := {
  geometry : list (Q * Q);
  ID : string;
  area : Q
}.

(** A parsed [datetime]. *)
Record datetime : Type := {
  year : Z; month : Z; day : Z; hour : Z; minute : Z; second : Z; microsecond : Z
}.

(** The keyword arguments of [dc.load]: a polygon and, possibly, a time range. *)
Record query : Type := {
  geopolygon : list (Q * Q);
  time_range : option (datetime * datetime)
}.

(** One entry of [WOFL.time] together with what lines 104-111 count in it
    through the polygon mask; [None] is a missing time (NaT). *)
Record timestep : Type := {
  time : option Z;
  MaskedAll : Z;
  MaskedWet : Z;
  MaskedDry : Z
}.

(** The collaborators of the script that live outside the repository. *)
Record Env : Type := {
  (** [datetime.strptime(_, '%Y-%m-%d %H:%M:%S.%f')] *)
  strptime : string -> result datetime;
  (** [Datacube(app = 'Polygon drill')] *)
  Datacube : result ();
  (** [dc.load(product='wofs_albers', **query)] and the polygon mask over
      it (lines 89-96), seen as the masked counts of every time slice *)
  load_masked : query -> result (list timestep);
  (** [_.to_dataframe().to_csv(None, header=False, index=False)] of the
      retained times *)
  to_csv : list Z -> result string;
  (** [open(path, 'a')]: [Some e] when it raises [e] *)
  open_append : string -> option exn;
  (** [writer.writerow(row)] on [path] after [k] rows went through:
      [Some e] when it raises [e] *)
  writerow_fault : string -> nat -> option exn;
  (** the text [csv.writer] produces for a row (without the line end) *)
  csv_row : string -> Z -> Q -> string
}.

(** What the script touches: text files as lists of lines (the
    [splitlines()] view; a row written by [csv.writer] is one more line),
    and the lines printed so far. *)
Record world : Type := {
  files : gmap string (list string);
  stdout : list string
}.

Definition print (line : string) : M world () := fun w =>
  ({| files := files w; stdout := stdout w ++ [line] |}, Ok ()).

(** *** Script *)

(** [find_lastline(fname, linenum)] *)
Definition find_lastline (fname : string) (linenum : Z) : M world string := fun w =>
  match files w !! fname with
  | None => (w, Raise FileNotFoundError)
  | Some lines => (w, index lines linenum)
  end.

Definition Output_dir : string := "/g/data/r78/vmn547/Dams/Timeseries_new2".

(** ['{0}/{1}.txt'.format(Output_dir, polyName)] *)
Definition output_path (polyName : string) : string :=
  (Output_dir ++ "/" ++ polyName ++ ".txt")%string.

(** Lines 113-120: the three percentages of one time slice. *)
Definition percentages (MaskedAll MaskedWet MaskedDry : Z) : result (Q * Q * Q) :=
  let attempt : result (Q * Q * Q) :=
    w ← truediv MaskedWet MaskedAll;
    let WaterPercent := (w * 100)%Q in
    d ← truediv MaskedDry MaskedAll;
    let DryPercent := (d * 100)%Q in
    u ← truediv (MaskedAll - (MaskedWet + MaskedDry)) MaskedAll;
    let UnknownPercent := (u * 100)%Q in
    Ok (WaterPercent, DryPercent, UnknownPercent) in
  match attempt with
  | Raise ZeroDivisionError => Ok (0%Q, 0%Q, 100%Q)
  | other => other
  end.

(** The four lists that the loop of lines 98-125 fills. *)
Record capacity : Type := {
  DamCapacityPc : list Q;
  DamCapacityCt : list Z;
  DryObserved : list Q;
  InvalidObservations : list Q
}.

(** Lines 102-125. *)
Fixpoint capacity_loop (WOFL : list timestep) (acc : capacity) : result capacity :=
  match WOFL with
  | [] => Ok acc
  | t :: WOFL' =>
      '(WaterPercent, DryPercent, UnknownPercent) ←
        percentages (MaskedAll t) (MaskedWet t) (MaskedDry t);
      capacity_loop WOFL'
        {| DamCapacityPc := DamCapacityPc acc ++ [WaterPercent];
           DamCapacityCt := DamCapacityCt acc ++ [MaskedWet t];
           DryObserved := DryObserved acc ++ [DryPercent];
           InvalidObservations := InvalidObservations acc ++ [UnknownPercent] |}
  end.

Definition empty_capacity : capacity :=
  {| DamCapacityPc := []; DamCapacityCt := [];
     DryObserved := []; InvalidObservations := [] |}.

(** The value appended to [InvalidObservations] for a time slice. *)
Definition UnknownPercent (t : timestep) : Q :=
  match percentages (MaskedAll t) (MaskedWet t) (MaskedDry t) with
  | Ok (_, _, u) => u
  | Raise _ => 100
  end.

(** The values appended to [DamCapacityPc] and [DryObserved] for a time
    slice. *)
Definition WaterPercent (t : timestep) : Q :=
  match percentages (MaskedAll t) (MaskedWet t) (MaskedDry t) with
  | Ok (w, _, _) => w
  | Raise _ => 0
  end.
Definition DryPercent (t : timestep) : Q :=
  match percentages (MaskedAll t) (MaskedWet t) (MaskedDry t) with
  | Ok (_, d, _) => d
  | Raise _ => 0
  end.


(** The test of line 129 on a time slice. *)
Definition retained (t : timestep) : bool := Qltb (UnknownPercent t) 10.

(** Line 129: [[i for i, x in enumerate(InvalidObservations) if x < 10]] *)
Definition ValidMask (InvalidObservations : list Q) : list Z :=
  map fst (List.filter (fun ix => Qltb (snd ix) 10) (enumerate InvalidObservations)).

(** [.dropna(dim = 'time')] *)
Definition dropna (times : list (option Z)) : list Z :=
  omap id times.

(** Lines 140-141: the rows go to the file one by one; a row that raises
    leaves the rows before it in the file. *)
Fixpoint write_rows (E : Env) (path : string) (k : nat)
    (rows : list (string * Z * Q)) : M world () :=
  match rows with
  | [] => mret ()
  | (d, ct, pc) :: rows' =>
      match writerow_fault E path k with
      | Some e => raise e
      | None =>
          (fun w =>
             ({| files := <[path := default [] (files w !! path) ++ [csv_row E d ct pc]]> (files w);
                 stdout := stdout w |}, Ok ())) ;;
          write_rows E path (S k) rows'
      end
  end.

(** Line 138: opening for append creates the file when it is missing. *)
Definition open_a (E : Env) (path : string) : M world () :=
  match open_append E path with
  | Some e => raise e
  | None => fun w =>
      ({| files := <[path := default [] (files w !! path)]> (files w);
          stdout := stdout w |}, Ok ())
  end.

(** Lines 129-141, the body of the [try]. *)
Definition filter_and_write (E : Env) (polyName : string)
    (WOFL : list timestep) (c : capacity) : M world () :=
  let ValidMask := ValidMask (InvalidObservations c) in
  times ← lift (comprehension (index (map time WOFL)) ValidMask);
  let ValidObs := dropna times in
  ValidCapacityPc ← lift (comprehension (index (DamCapacityPc c)) ValidMask);
  ValidCapacityCt ← lift (comprehension (index (DamCapacityCt c)) ValidMask);
  csv ← lift (to_csv E ValidObs);
  let DateList := split "010" csv in
  let rows := zip3 DateList ValidCapacityCt ValidCapacityPc in
  match DateList with
  | [] => mret ()
  | _ :: _ =>
      open_a E (output_path polyName) ;;
      write_rows E (output_path polyName) 0 rows
  end.

(** Lines 77-143. *)
Definition FindOutHowFullTheDamIs (E : Env) (shapes : shape) : M world () :=
  lift (Datacube E) ;;
  let first_geometry := geometry shapes in
  let polyName := ID shapes in
  print polyName ;;
  let polyArea := area shapes in
  let geom := first_geometry in
  let fname := output_path polyName in
  last_line ← find_lastline fname (-1);
  '(last_date, lastObs) ←
     match split "," last_line with
     | [a; b] => mret (a, b)
     | _ => raise ValueError
     end;
  from_date ← lift (strptime E last_date);
  let query := {| geopolygon := geom; time_range := None |} in
  WOFL ← lift (load_masked E query);
  c ← lift (capacity_loop WOFL empty_capacity);
  try_except
    (filter_and_write E polyName WOFL c)
    (print ("This polygon isn't working...: " ++ polyName)%string).

(** The world once the lines [ws] went to the end of the file [path],
    which held [lines], and [out] went to the console. *)
Definition appended (path : string) (lines ws out : list string) (w : world) : world :=
  {| files := <[path := lines ++ ws]> (files w); stdout := stdout w ++ out |}.

(** What the [except] clause of line 142 prints for the outcome [r] of the
    [try] body. *)
Definition caught_log (s : shape) (r : result ()) : list string :=
  match r with
  | Ok _ => []
  | Raise _ => [("This polygon isn't working...: " ++ ID s)%string]
  end.

(** The line that [writer.writerow(row)] adds for a row of line 135. *)
Definition row_text (E : Env) (row : string * Z * Q) : string :=
  let '(d, ct, pc) := row in csv_row E d ct pc.


(** Lines 152-153. *)
Definition main_loop (E : Env) (shapessubset : list shape) : M world () :=
  for_each shapessubset (FindOutHowFullTheDamIs E).

Definition shape_file : string :=
  "/g/data/r78/cek156/dea-notebooks/Dams/Dams2000to2018/AllNSW2000to201810pcMinMaxRiverCleaned.shp".
Definition lastDateLog : string := "/g/data/r78/vmmn547/Dams/lastTimeLog.txt".

(** The whole script, lines 36-153, for the command-line argument [argv1]
    and the features [ShapesList] that fiona reads from [shape_file]. *)
Definition script (E : Env) (argv1 : string) (ShapesList : list shape) : M world () :=
  print ("Reading in " ++ shape_file)%string ;;
  lastTime ← find_lastline lastDateLog (-1);
  part ← lift (int argv1);
  print ("Working on chunk " ++ str part)%string ;;
  let ChunkSize := ChunkSize (Z.of_nat (length ShapesList)) in
  let shapessubset := shapessubset ShapesList part in
  print ("The index we will use is (" ++ str ((part - 1) * ChunkSize)
           ++ ", " ++ str (part * ChunkSize) ++ ")")%string ;;
  main_loop E shapessubset.

End Dam.

(** ** Pipeline B: SICA_parallel.py *)
Module SICA.
Import Py.

Definition results : string :=
  "/g/data/r78/cb3058/dea-notebooks/ICE_project/results/SA_MDB/".
Definition season : string := "Summer".
Definition AOI : string := "SA_MDB".

(** Lines 43-50, for a given value of the global [season]: the local
    [year] once both [if] statements ran; it stays unbound when neither
    branch is taken. *)
Definition year_label (season tif : string) : result string :=
  year ←
    (if String.eqb season "Summer" then
       let year := str_slice tif (Some 13) (Some 17) in
       n ← int year;
       let nextyear := str_slice (str (n + 1)) (Some 2) None in
       let year := (year ++ "_" ++ nextyear)%string in
       let year := (season ++ year)%string in
       Ok (Some year)
     else Ok None);
  year ←
    (if String.eqb season "Winter" then
       let year := str_slice tif (Some 7) (Some 11) in
       let year := (season ++ year)%string in
       Ok (Some year)
     else Ok year);
  match year with
  | Some year => Ok year
  | None => Raise UnboundLocalError
  end.

(** Line 53: [directory = results_ + AOI + "_" + year] *)
Definition directory (tif : string) : result string :=
  year ← year_label season tif;
  Ok (results ++ AOI ++ "_" ++ year)%string.




(** A raster value: a number or the no-data value [np.nan]. *)
Inductive pixel : Type :=
| Num (v : Q)
| nan.

(** [x >= t] and [x < t] on a raster value; false on [nan]. *)
Definition ge (x : pixel) (t : Q) : bool :=
  match x with Num v => Qle_bool t v | nan => false end.
Definition lt (x : pixel) (t : Q) : bool :=
  match x with Num v => Qltb v t | nan => false end.

(** Lines 84-88 on one element of [segment_means.values]. *)
Definition threshold (v : pixel) : pixel :=
  let a := if ge v 0.8 then Num 80 else v in
  let b := if ge a 0.70 && lt a 0.8 then Num 70 else a in
  let c := if ge b 0.60 && lt b 0.70 then Num 60 else b in
  let d := if ge c 0.55 && lt c 0.60 then Num 55 else c in
  let e := if ge d 55 then d else nan in
  e.

(** Lines 84-88: [np.where] works element by element. *)
Definition multithreshold (segment_means : list (list pixel)) : list (list pixel) :=
  map (map threshold) segment_means.

(** A feature written by the polygonizer: its class value and the planar
    area of its geometry. *)
Record feature : Type := {
  DN : Z;
  geometry_area : Q
}.

(** A row of [gdf] once line 107 added the column ['area']. *)
Record row : Type := {
  feat : feature;
  area : Q
}.

(** The three tests of lines 108-112 on one feature. *)
Definition keeps (f : feature) : bool :=
  Qle_bool (geometry_area f) 50000000 && (DN f =? 60) && Qltb 100000 (geometry_area f).

(** Two decimal digits for a number below 100. *)
Definition two_digits (m : Z) : string := (str (m / 10) ++ str (m mod 10))%string.

(** Whether, for the year [n], [int] reads back what [str] wrote and the
    text of the following year, cut as on line 45, is its last two digits. *)
Definition year_round_trip (n : Z) : bool :=
  match int (str n) with
  | Ok m => (m =? n) && String.eqb (str_slice (str (n + 1)) (Some 2) None)
                                   (two_digits ((n + 1) mod 100))
  | Raise _ => false
  end.

(** Lines 106-112. [gdf.area] on line 112 is the area of the geometry
    column, which line 107 copied into ['area']. *)
Definition filter_polygons (polygons : list feature) : list row :=
  let gdf := map (fun f => {| feat := f; area := geometry_area f |}) polygons in
  let smallArea := fun r => Qle_bool (area r) 50000000 in
  let gdf := List.filter smallArea gdf in
  let gdf := List.filter (fun r => DN (feat r) =? 60) gdf in
  let gdf := List.filter (fun r => Qltb 100000 (geometry_area (feat r))) gdf in
  gdf.

End SICA.

(** ** Concrete collaborators and inputs, used to run the model *)
Module Fixture.
Import Py Dam.

(** A rendering of a rational, standing in for [str] of a float. *)
Definition show_Q (q : Q) : string :=
  (str (Qnum q) ++ "/" ++ str (Z.pos (Qden q)))%string.

(** A time slice of ten pixels, one of them neither wet nor dry. *)
Definition tenth_unknown : timestep :=
  {| time := Some 300; MaskedAll := 10; MaskedWet := 9; MaskedDry := 0 |}.

(** Four time slices; in the second one half of the pixels are unobserved,
    in the third exactly a tenth. *)
Definition slices : list timestep :=
  [ {| time := Some 100; MaskedAll := 4; MaskedWet := 3; MaskedDry := 1 |};
    {| time := Some 200; MaskedAll := 4; MaskedWet := 1; MaskedDry := 1 |};
    tenth_unknown;
    {| time := Some 400; MaskedAll := 4; MaskedWet := 2; MaskedDry := 2 |} ].

(** The four lists that lines 102-125 build from [slices]. *)
Definition slices_capacity : capacity :=
  {| DamCapacityPc := [300 # 4; 100 # 4; 900 # 10; 200 # 4];
     DamCapacityCt := [3; 1; 9; 2];
     DryObserved := [100 # 4; 100 # 4; 0 # 10; 200 # 4];
     InvalidObservations := [0 # 4; 200 # 4; 100 # 10; 0 # 4] |}.

Definition env : Env :=
  {| strptime := fun s =>
       if String.eqb s "" then Raise ValueError
       else Ok {| year := 2018; month := 8; day := 1; hour := 0; minute := 0;
                  second := 0; microsecond := 0 |};
     Datacube := Ok ();
     load_masked := fun _ => Ok slices;
     to_csv := fun ts =>
       Ok (String.concat "" (map (fun t => (str t ++ String "010" "")%string) ts));
     open_append := fun _ => None;
     writerow_fault := fun _ _ => None;
     csv_row := fun d ct pc => (d ++ "," ++ str ct ++ "," ++ show_Q pc)%string |}.

(** The same collaborators, except that the second [writerow] of a file
    raises. *)
Definition env_disk_full : Env :=
  {| strptime := strptime env;
     Datacube := Datacube env;
     load_masked := load_masked env;
     to_csv := to_csv env;
     open_append := open_append env;
     writerow_fault := fun _ k => if (k =? 1)%nat then Some (OSError "disk full") else None;
     csv_row := csv_row env |}.

Definition dam7 : shape := {| geometry := [(0, 0); (0, 1); (1, 1); (0, 0)]%Q; ID := "7"; area := 1 # 2 |}.
Definition dam8 : shape := {| geometry := [(2, 2); (2, 3); (3, 3); (2, 2)]%Q; ID := "8"; area := 1 # 2 |}.
Definition dam9 : shape := {| geometry := [(4, 4); (4, 5); (5, 5); (4, 4)]%Q; ID := "9"; area := 1 # 2 |}.

(** The log of line 39 and the output files of the polygons, each ending in
    a different row of two fields, which is what line 85 unpacks. *)
Definition checkpointed : world :=
  {| files := {[ lastDateLog := ["2018-08-01 00:00:00"];
                 output_path "7" := ["2018-08-01 00:00:00.000000,75.0"];
                 output_path "8" := ["2018-08-02 00:00:00.000000,25.0"];
                 output_path "9" := ["2018-08-03 00:00:00.000000,50.0"] ]};
     stdout := [] |}.

(** The same polygon file with another last row. *)
Definition checkpointed_later : world :=
  {| files := {[ output_path "7" := ["2018-08-01 00:00:00.000000,75.0";
                                     "2018-09-17 00:00:00.000000,100.0"] ]};
     stdout := [] |}.

(** The output file of polygon 7 exists and holds no line. *)
Definition empty_file : world :=
  {| files := {[ output_path "7" := [] ]}; stdout := [] |}.

(** The time of a time slice, 0 when it is missing. *)
Definition stamp (t : timestep) : Z := default 0 (time t).

(** The output file of polygon 7 after this script added a row to it. *)
Definition three_fields : world :=
  {| files := {[ output_path "7" := ["2018-08-01 00:00:00.000000,75.0"; "100,3,300/4"] ]};
     stdout := [] |}.

(** The log of line 39 exists and holds no line. *)
Definition empty_log : world :=
  {| files := {[ lastDateLog := [] ]}; stdout := [] |}.

(** The output file of polygon 7 is missing. *)
Definition no_checkpoint : world :=
  {| files := {[ output_path "8" := ["2018-08-02 00:00:00.000000,25.0"] ]};
     stdout := [] |}.

End Fixture.

(* ================================================================== *)
(** * Properties *)

Import Py Dam.

(** ** Python built-ins on concrete inputs *)

Example slice_negative_start : slice [1; 2; 3; 4; 5] (Some (-2)) None = [4; 5].
Proof. reflexivity. Qed.

Example slice_clamped : slice [1; 2; 3; 4; 5] (Some 3) (Some 9) = [4; 5].
Proof. reflexivity. Qed.

Example slice_empty : slice [1; 2; 3; 4; 5] (Some 3) (Some 2) = [].
Proof. reflexivity. Qed.

Example index_last : index [1; 2; 3] (-1) = Ok 3.
Proof. reflexivity. Qed.

Example index_out_of_range : index [1; 2; 3] 3 = Raise IndexError.
Proof. reflexivity. Qed.

Example split_fields : split "," "a,b,,c" = ["a"; "b"; ""; "c"]%string.
Proof. reflexivity. Qed.

Example split_empty : split "," "" = [""]%string.
Proof. reflexivity. Qed.

Example int_underscore : int " +1_000 " = Ok 1000.
Proof. reflexivity. Qed.

Example int_not_a_number : int "20a0" = Raise ValueError.
Proof. reflexivity. Qed.

Example shapessubset_5_3 : shapessubset [10; 11; 12; 13; 14] 3 = [14].
Proof. reflexivity. Qed.

Example shapessubset_70 :
  shapessubset (seq 0 70) 17 = [64; 65; 66; 67]%nat
  /\ shapessubset (seq 0 70) 18 = [68; 69]%nat
  /\ shapessubset (seq 0 70) 19 = []
  /\ shapessubset (seq 0 70) 32 = [].
Proof. repeat split. Qed.

(** ** Slicing *)
Section Slicing.
Context {A : Type}.
Implicit Types (l : list A) (a b : Z).

Lemma between_firstn_skipn l : forall a b,
  between a b l = firstn (Z.to_nat (b - Z.max a 0)) (skipn (Z.to_nat a) l).
Proof.
  induction l as [|x l IH]; intros a b; simpl.
  - now rewrite skipn_nil, firstn_nil.
  - rewrite IH.
    destruct (Z.leb_spec a 0) as [Ha|Ha]; destruct (Z.ltb_spec 0 b) as [Hb|Hb]; simpl.
    + replace (Z.to_nat a) with 0%nat by lia.
      replace (Z.to_nat (a - 1)) with 0%nat by lia. simpl.
      replace (Z.to_nat (b - Z.max a 0)) with (S (Z.to_nat (b - 1 - Z.max (a - 1) 0))) by lia.
      reflexivity.
    + replace (Z.to_nat (b - Z.max a 0)) with 0%nat by lia.
      replace (Z.to_nat (b - 1 - Z.max (a - 1) 0)) with 0%nat by lia.
      reflexivity.
    + replace (Z.to_nat a) with (S (Z.to_nat (a - 1))) by lia. simpl.
      replace (b - 1 - Z.max (a - 1) 0) with (b - Z.max a 0) by lia.
      reflexivity.
    + replace (Z.to_nat a) with (S (Z.to_nat (a - 1))) by lia. simpl.
      replace (b - 1 - Z.max (a - 1) 0) with (b - Z.max a 0) by lia.
      reflexivity.
Qed.

Lemma filter_positions_between l : forall (s : nat) a b,
  map snd (List.filter (fun px : Z * A => (a <=? fst px) && (fst px <? b))
                  (combine (map Z.of_nat (seq s (length l))) l))
  = between (a - Z.of_nat s) (b - Z.of_nat s) l.
Proof.
  induction l as [|x l IH]; intros s a b; simpl; [reflexivity|].
  specialize (IH (S s) a b).
  replace (a - Z.of_nat (S s)) with (a - Z.of_nat s - 1) in IH by lia.
  replace (b - Z.of_nat (S s)) with (b - Z.of_nat s - 1) in IH by lia.
  rewrite <- IH.
  destruct (Z.leb_spec a (Z.of_nat s)); destruct (Z.ltb_spec (Z.of_nat s) b);
    destruct (Z.leb_spec (a - Z.of_nat s) 0); destruct (Z.ltb_spec 0 (b - Z.of_nat s));
    simpl; try reflexivity; lia.
Qed.

(** A slice with non-negative bounds: clamping to the length is the
    clipping that [firstn] and [skipn] do by themselves. *)
Lemma slice_nonneg l a b :
  0 <= a -> 0 <= b ->
  slice l (Some a) (Some b) = firstn (Z.to_nat (b - a)) (skipn (Z.to_nat a) l).
Proof.
  intros Ha Hb. unfold slice, clamp_index.
  destruct (Z.ltb_spec a 0); [lia|]. destruct (Z.ltb_spec b 0); [lia|].
  set (n := Z.of_nat (length l)).
  destruct (Z.le_gt_cases n a) as [Hn|Hn].
  - rewrite !skipn_all2 by lia. now rewrite !firstn_nil.
  - replace (Z.min a n) with a by lia.
    destruct (Z.le_gt_cases b n) as [Hbn|Hbn].
    + now replace (Z.min b n) with b by lia.
    + replace (Z.min b n) with n by lia.
      rewrite !firstn_all2; [reflexivity| |]; rewrite length_skipn; lia.
Qed.

End Slicing.

(** ** Chunk selector *)
Section ChunkSelector.
Context {A : Type}.
Implicit Types (shapes : list A) (i j : Z).

Lemma ChunkSize_pos (n : Z) : 0 <= n -> 1 <= ChunkSize n.
Proof.
  intros Hn. unfold ChunkSize, ceil_div.
  pose proof (Z.div_mod (- n) 32 ltac:(lia)).
  pose proof (Z.mod_pos_bound (- n) 32 ltac:(lia)). lia.
Qed.

Lemma ChunkSize_covers (n : Z) : 0 <= n -> n <= 32 * ChunkSize n.
Proof.
  intros Hn. unfold ChunkSize, ceil_div.
  pose proof (Z.div_mod (- n) 32 ltac:(lia)).
  pose proof (Z.mod_pos_bound (- n) 32 ltac:(lia)). lia.
Qed.

(** For a 1-based index the chunk is a [take] of a [drop]. *)
Lemma shapessubset_take_drop shapes i :
  1 <= i ->
  let cs := Z.to_nat (ChunkSize (Z.of_nat (length shapes))) in
  shapessubset shapes i = take cs (drop (Z.to_nat (i - 1) * cs) shapes).
Proof.
  intros Hi cs. unfold shapessubset.
  pose proof (ChunkSize_pos (Z.of_nat (length shapes)) ltac:(lia)) as Hcs.
  rewrite slice_nonneg by nia. subst cs. f_equal; [|f_equal]; nia.
Qed.

(** Consecutive chunks of a fixed size, glued together, are a prefix. *)
Lemma concat_chunks shapes (cs m : nat) :
  concat (map (fun k : nat => take cs (drop (k * cs) shapes)) (seq 0 m))
  = take (m * cs) shapes.
Proof.
  induction m as [|m IH]; [reflexivity|].
  rewrite seq_S, map_app, concat_app, IH. simpl.
  rewrite app_nil_r, take_take_drop. f_equal. lia.
Qed.

End ChunkSelector.

Section ChunkPartition.
Context {A : Type}.
Implicit Types (shapes : list A) (i j : Z).

Lemma chunks_apart shapes i j (x : A) :
  NoDup shapes -> 1 <= i -> i < j ->
  x ∈ shapessubset shapes i -> x ∈ shapessubset shapes j -> False.
Proof.
  intros Hnd Hi Hij Hxi Hxj.
  rewrite shapessubset_take_drop in Hxi, Hxj by lia. cbv zeta in Hxi, Hxj.
  set (cs := Z.to_nat (ChunkSize (Z.of_nat (length shapes)))) in *.
  set (hi := (Z.to_nat (i - 1) * cs + cs)%nat).
  assert (Hl : x ∈ take hi shapes).
  { unfold hi. rewrite <- take_take_drop. apply elem_of_app. now right. }
  assert (Hr : x ∈ drop hi shapes).
  { assert (Hd : x ∈ drop (Z.to_nat (j - 1) * cs) shapes).
    { rewrite <- (take_drop cs (drop _ shapes)). apply elem_of_app. now left. }
    replace (Z.to_nat (j - 1) * cs)%nat
      with (hi + (Z.to_nat (j - 1) * cs - hi))%nat in Hd by (unfold hi; nia).
    rewrite <- drop_drop in Hd.
    rewrite <- (take_drop (Z.to_nat (j - 1) * cs - hi) (drop hi shapes)).
    apply elem_of_app. now right. }
  rewrite <- (take_drop hi shapes) in Hnd.
  apply NoDup_app in Hnd as (_ & Hdisj & _). exact (Hdisj x Hl Hr).
Qed.

Lemma fan_out_concat shapes :
  concat (map (shapessubset shapes) fan_out) = shapes.
Proof.
  unfold fan_out. rewrite <- seq_shift, !map_map.
  set (cs := Z.to_nat (ChunkSize (Z.of_nat (length shapes)))).
  rewrite (map_ext _ (fun k : nat => take cs (drop (k * cs) shapes))).
  - rewrite concat_chunks. apply firstn_all2.
    pose proof (ChunkSize_covers (Z.of_nat (length shapes)) ltac:(lia)).
    pose proof (ChunkSize_pos (Z.of_nat (length shapes)) ltac:(lia)).
    unfold cs. lia.
  - intros k. rewrite shapessubset_take_drop by lia. cbv zeta. fold cs.
    do 3 f_equal. lia.
Qed.

End ChunkPartition.

(** C1: for every polygon count and every 1-based chunk index [i], the chunk
    selector returns the elements of the ordered polygon list whose positions
    lie in [[(i-1)*(ceil(n/32)+1), i*(ceil(n/32)+1))], clipped to [[0, n)]. *)
Theorem chunk_selector_bounds {A : Type} (shapes : list A) (i : Z) :
  1 <= i -> shapessubset shapes i = spec_chunk shapes i.
Proof.
  intros Hi. unfold shapessubset, spec_chunk, enumerate.
  pose proof (ChunkSize_pos (Z.of_nat (length shapes)) ltac:(lia)) as Hcs.
  unfold ChunkSize in *.
  rewrite slice_nonneg by nia.
  rewrite (filter_positions_between shapes 0), between_firstn_skipn.
  simpl Z.of_nat. rewrite !Z.sub_0_r. do 2 f_equal. nia.
Qed.

Lemma chunk_selector_bounds_witness :
  1 <= 2 /\ shapessubset [10; 11; 12; 13; 14] 2 = spec_chunk [10; 11; 12; 13; 14] 2.
Proof. split; [lia | apply chunk_selector_bounds; lia]. Defined.

(** C2: for every polygon count, the chunks of two distinct indices in 1..32
    share no polygon, and the chunks of the indices 1..32, taken in order, make
    up the full ordered polygon list again. *)
Theorem chunks_partition {A : Type} (shapes : list A) :
  (NoDup shapes ->
   forall i j x, 1 <= i <= 32 -> 1 <= j <= 32 -> i <> j ->
     x ∈ shapessubset shapes i -> x ∉ shapessubset shapes j)
  /\ concat (map (shapessubset shapes) fan_out) = shapes.
Proof.
  split; [|apply fan_out_concat].
  intros Hnd i j x Hi Hj Hne Hxi Hxj.
  destruct (Z.lt_ge_cases i j).
  - apply (chunks_apart shapes i j x); auto; lia.
  - apply (chunks_apart shapes j i x); auto; lia.
Qed.

Lemma chunks_partition_witness :
  (forall i j x, 1 <= i <= 32 -> 1 <= j <= 32 -> i <> j ->
     x ∈ shapessubset [10; 11; 12; 13; 14] i -> x ∉ shapessubset [10; 11; 12; 13; 14] j)
  /\ concat (map (shapessubset [10; 11; 12; 13; 14]) fan_out) = [10; 11; 12; 13; 14].
Proof.
  split.
  - apply (chunks_partition [10; 11; 12; 13; 14]).
    apply (bool_decide_unpack _). vm_compute. reflexivity.
  - apply (chunks_partition [10; 11; 12; 13; 14]).
Defined.

(** ** Percentages and the observation filter *)
Section Percentages.
Implicit Types (t : timestep) (WOFL : list timestep) (c : capacity).

Lemma Qltb_lt (x y : Q) : Qltb x y = true <-> (x < y)%Q.
Proof.
  unfold Qltb. rewrite negb_true_iff, <- not_true_iff_false, Qle_bool_iff.
  split; [apply Qnot_le_lt | apply Qlt_not_le].
Qed.

Lemma percentages_zero (wet dry : Z) :
  percentages 0 wet dry = Ok (0, 0, 100)%Q.
Proof. reflexivity. Qed.

Lemma percentages_nonzero (all wet dry : Z) :
  all <> 0 ->
  percentages all wet dry
  = Ok (inject_Z wet / inject_Z all * 100,
        inject_Z dry / inject_Z all * 100,
        inject_Z (all - (wet + dry)) / inject_Z all * 100)%Q.
Proof.
  intros Hall. unfold percentages, truediv.
  destruct (Z.eqb_spec all 0); [contradiction | reflexivity].
Qed.

Lemma percentages_Ok (all wet dry : Z) :
  exists p, percentages all wet dry = Ok p.
Proof.
  destruct (Z.eq_dec all 0) as [->|Hall].
  - eexists. apply percentages_zero.
  - eexists. now apply percentages_nonzero.
Qed.

(** The loop never raises, and appends the indeterminate percentage of
    every time slice in order. *)
Lemma capacity_loop_InvalidObservations WOFL : forall acc,
  exists c, capacity_loop WOFL acc = Ok c
    /\ InvalidObservations c = InvalidObservations acc ++ map UnknownPercent WOFL.
Proof.
  induction WOFL as [|t WOFL IH]; intros acc; simpl.
  - exists acc. now rewrite app_nil_r.
  - unfold UnknownPercent at 1.
    destruct (percentages_Ok (MaskedAll t) (MaskedWet t) (MaskedDry t)) as [[[w d] u] ->].
    simpl.
    edestruct IH as (c & -> & Hc). exists c. split; [reflexivity|].
    rewrite Hc. simpl. now rewrite <- app_assoc.
Qed.

Lemma ValidMask_from (l : list Q) : forall (s i : nat),
  In (Z.of_nat (s + i))
     (map fst (List.filter (fun ix : Z * Q => Qltb (snd ix) 10)
                           (combine (map Z.of_nat (seq s (length l))) l)))
  <-> exists x, nth_error l i = Some x /\ (x < 10)%Q.
Proof.
  induction l as [|y l IH]; intros s i; simpl.
  - split; [tauto | intros (x & Hx & _); now destruct i].
  - destruct i as [|i].
    + replace (s + 0)%nat with s by lia.
      destruct (Qltb y 10) eqn:Hy; simpl.
      * split; [intros _|left; reflexivity]. exists y. now rewrite <- Qltb_lt.
      * split.
        -- intros Hin. exfalso. apply in_map_iff in Hin as ((k & x) & Hk & Hin).
           apply filter_In in Hin as (Hin & _). apply in_combine_l in Hin.
           apply in_map_iff in Hin as (k' & Hk' & Hin). apply in_seq in Hin.
           simpl in Hk. lia.
        -- intros (x & [= <-] & Hx). apply Qltb_lt in Hx. congruence.
    + replace (s + S i)%nat with (S s + i)%nat by lia.
      rewrite <- (IH (S s) i).
      destruct (Qltb y 10); simpl; [|reflexivity].
      split; [intros [H|H]; [lia|exact H] | now right].
Qed.

Lemma ValidMask_spec (l : list Q) (i : nat) :
  In (Z.of_nat i) (ValidMask l) <-> exists x, nth_error l i = Some x /\ (x < 10)%Q.
Proof. apply (ValidMask_from l 0 i). Qed.

End Percentages.

(** C8: for every time slice, a total masked pixel count of 0 gives the
    percentages 0.0, 0.0 and 100.0; any other total gives three percentages
    that add up to 100 over exact arithmetic. *)
Theorem percentages_sum (all wet dry : Z) :
  (all = 0 -> percentages all wet dry = Ok (0, 0, 100)%Q)
  /\ (all <> 0 ->
      exists w d u, percentages all wet dry = Ok (w, d, u) /\ (w + d + u == 100)%Q).
Proof.
  split.
  - intros ->. apply percentages_zero.
  - intros Hall. do 3 eexists. split; [now apply percentages_nonzero|].
    unfold Z.sub. rewrite inject_Z_plus, inject_Z_opp, inject_Z_plus.
    assert (Hq : ~ (inject_Z all == 0)%Q).
    { unfold Qeq. simpl. lia. }
    field. exact Hq.
Qed.

Lemma percentages_sum_witness :
  percentages 0 0 0 = Ok (0, 0, 100)%Q
  /\ exists w d u, percentages 10 9 0 = Ok (w, d, u) /\ (w + d + u == 100)%Q.
Proof.
  split.
  - apply (percentages_sum 0 0 0). reflexivity.
  - apply (percentages_sum 10 9 0). lia.
Defined.

(** C7: a time slice of a polygon is retained by the observation filter
    exactly when its indeterminate percentage is strictly below 10; a slice
    whose indeterminate percentage is exactly 10 is left out. *)
Theorem observation_filter_strict (WOFL : list timestep) (c : capacity)
    (i : nat) (t : timestep) :
  capacity_loop WOFL empty_capacity = Ok c ->
  nth_error WOFL i = Some t ->
  (In (Z.of_nat i) (ValidMask (InvalidObservations c)) <-> (UnknownPercent t < 10)%Q)
  /\ ((UnknownPercent t == 10)%Q -> ~ In (Z.of_nat i) (ValidMask (InvalidObservations c))).
Proof.
  intros Hc Ht.
  destruct (capacity_loop_InvalidObservations WOFL empty_capacity) as (c' & Hc' & Hinv).
  rewrite Hc in Hc'. injection Hc' as <-. simpl in Hinv.
  assert (Hiff : In (Z.of_nat i) (ValidMask (InvalidObservations c))
                 <-> (UnknownPercent t < 10)%Q).
  { rewrite ValidMask_spec, Hinv, nth_error_map, Ht. simpl. split.
    - now intros (x & [= <-] & Hx).
    - intros Hx. eauto. }
  split; [exact Hiff|].
  intros Heq Hin. apply Hiff in Hin. rewrite Heq in Hin. discriminate.
Qed.

Lemma observation_filter_strict_witness :
  (In 2 (ValidMask (InvalidObservations Fixture.slices_capacity))
     <-> (UnknownPercent Fixture.tenth_unknown < 10)%Q)
  /\ ((UnknownPercent Fixture.tenth_unknown == 10)%Q
      -> ~ In 2 (ValidMask (InvalidObservations Fixture.slices_capacity))).
Proof.
  apply (observation_filter_strict Fixture.slices Fixture.slices_capacity 2%nat);
    reflexivity.
Defined.

(** ** Effects of processing one polygon *)
Section PolygonEffects.
Variable E : Env.
Implicit Types (w : world) (lines ws : list string) (s : shape).

Lemma appended_nothing path lines w :
  files w !! path = Some lines -> appended path lines [] [] w = w.
Proof.
  intros Hl. destruct w as [fs out]. unfold appended. simpl in *.
  rewrite !app_nil_r. f_equal. now apply insert_id.
Qed.

Lemma written_nothing path lines w :
  files w !! path = Some lines ->
  {| files := <[path := lines]> (files w); stdout := stdout w |} = w.
Proof.
  intros Hl. destruct w as [fs out]. simpl in *. f_equal. now apply insert_id.
Qed.

(** Writing rows only ever adds lines at the end of the file, also when a
    row raises: what was written before stays. *)
Lemma write_rows_appends path rows : forall k,
  exists ws r, forall w lines,
    files w !! path = Some lines ->
    write_rows E path k rows w
    = ({| files := <[path := lines ++ ws]> (files w); stdout := stdout w |}, r).
Proof.
  induction rows as [|[[d ct] pc] rows IH]; intros k; simpl.
  - exists [], (Ok ()). intros w lines Hl.
    now rewrite app_nil_r, written_nothing.
  - destruct (writerow_fault E path k) as [e|].
    + exists [], (Raise e). intros w lines Hl.
      unfold raise. now rewrite app_nil_r, written_nothing.
    + destruct (IH (S k)) as (ws & r & Hrows).
      exists (csv_row E d ct pc :: ws), r. intros w lines Hl.
      unfold mbind, M_bind. rewrite Hl. simpl.
      erewrite Hrows by (simpl; apply lookup_insert_eq). simpl.
      now rewrite insert_insert_eq, <- app_assoc.
Qed.

(** The body of the [try] adds lines at the end of the polygon's file and
    prints nothing, whether it ends normally or raises. *)
Lemma filter_and_write_appends polyName WOFL c :
  exists ws r, forall w lines,
    files w !! output_path polyName = Some lines ->
    filter_and_write E polyName WOFL c w
    = ({| files := <[output_path polyName := lines ++ ws]> (files w);
          stdout := stdout w |}, r).
Proof.
  unfold filter_and_write.
  assert (Hstop : forall e, exists ws r, forall w lines,
             files w !! output_path polyName = Some lines ->
             (w, @Raise () e)
             = ({| files := <[output_path polyName := lines ++ ws]> (files w);
                   stdout := stdout w |}, r)).
  { intros e. exists [], (Raise e). intros w lines Hl.
    now rewrite app_nil_r, written_nothing. }
  unfold mbind at 1, M_bind at 1, lift at 1.
  destruct (comprehension (index (map time WOFL)) _) as [times|e]; [|apply Hstop].
  unfold mbind at 1, M_bind at 1, lift at 1.
  destruct (comprehension (index (DamCapacityPc c)) _) as [Pc|e]; [|apply Hstop].
  unfold mbind at 1, M_bind at 1, lift at 1.
  destruct (comprehension (index (DamCapacityCt c)) _) as [Ct|e]; [|apply Hstop].
  unfold mbind at 1, M_bind at 1, lift at 1.
  destruct (to_csv E (dropna times)) as [csv|e]; [|apply Hstop].
  destruct (split "010" csv) as [|d DateList].
  { exists [], (Ok ()). intros w lines Hl.
    unfold mret, M_ret. now rewrite app_nil_r, written_nothing. }
  unfold open_a. destruct (open_append E (output_path polyName)) as [e|].
  { exists [], (Raise e). intros w lines Hl.
    unfold mbind, M_bind, raise. now rewrite app_nil_r, written_nothing. }
  destruct (write_rows_appends (output_path polyName)
              (zip3 (d :: DateList) Ct Pc) 0) as (ws & r & Hrows).
  exists ws, r. intros w lines Hl.
  unfold mbind, M_bind. rewrite Hl. simpl default.
  erewrite Hrows by (simpl; apply lookup_insert_eq). simpl.
  now rewrite insert_insert_eq.
Qed.

(** Once the connection and the query have succeeded, a polygon whose
    checkpoint parses ends normally whatever the [try] body does; a failure
    in that body shows as the message with the polygon identifier, and the
    lines written before it stay in the file. *)
Lemma FindOut_loaded s WOFL :
  Datacube E = Ok () ->
  load_masked E {| geopolygon := geometry s; time_range := None |} = Ok WOFL ->
  exists c ws r,
    capacity_loop WOFL empty_capacity = Ok c
    /\ (forall w lines,
          files w !! output_path (ID s) = Some lines ->
          filter_and_write E (ID s) WOFL c w
          = ({| files := <[output_path (ID s) := lines ++ ws]> (files w);
                stdout := stdout w |}, r))
    /\ forall w lines last_line last_date lastObs dt,
        files w !! output_path (ID s) = Some lines ->
        index lines (-1) = Ok last_line ->
        split "," last_line = [last_date; lastObs] ->
        strptime E last_date = Ok dt ->
        FindOutHowFullTheDamIs E s w
        = (appended (output_path (ID s)) lines ws (ID s :: caught_log s r) w, Ok ()).
Proof.
  intros Hdc Hload.
  destruct (capacity_loop_InvalidObservations WOFL empty_capacity) as (c & Hc & _).
  destruct (filter_and_write_appends (ID s) WOFL c) as (ws & r & Hbody).
  exists c, ws, r. split; [exact Hc|]. split; [exact Hbody|].
  intros w lines last_line last_date lastObs dt Hl Hlast Hsplit Hdt.
  unfold FindOutHowFullTheDamIs.
  unfold mbind, M_bind, lift, print, find_lastline, try_except, mret, M_ret.
  rewrite Hdc. simpl. rewrite Hl, Hlast, Hsplit, Hdt, Hload, Hc.
  erewrite Hbody by (simpl; exact Hl). unfold appended, caught_log. simpl.
  destruct r as [[]|e]; simpl; [reflexivity | now rewrite <- app_assoc].
Qed.

(** What a polygon adds to its file and to the console, and how it ends,
    is fixed by the collaborators and the polygon alone, for every world in
    which the checkpoint parses. *)
Lemma FindOut_checkpoint_free s :
  exists ws out r, forall w lines last_line last_date lastObs dt,
    files w !! output_path (ID s) = Some lines ->
    index lines (-1) = Ok last_line ->
    split "," last_line = [last_date; lastObs] ->
    strptime E last_date = Ok dt ->
    FindOutHowFullTheDamIs E s w
    = (appended (output_path (ID s)) lines ws out w, r).
Proof.
  destruct (Datacube E) as [[]|e] eqn:Hdc.
  - destruct (load_masked E {| geopolygon := geometry s; time_range := None |})
      as [WOFL|e] eqn:Hload.
    + destruct (FindOut_loaded s WOFL Hdc Hload) as (c & ws & r & _ & _ & Hrun).
      exists ws, (ID s :: caught_log s r), (Ok ()). exact Hrun.
    + exists [], [ID s], (Raise e).
      intros w lines last_line last_date lastObs dt Hl Hlast Hsplit Hdt.
      unfold FindOutHowFullTheDamIs.
      unfold mbind, M_bind, lift, print, find_lastline, try_except, mret, M_ret.
      rewrite Hdc. simpl. rewrite Hl, Hlast, Hsplit, Hdt, Hload.
      unfold appended. simpl. rewrite app_nil_r. do 2 f_equal.
      symmetry. now apply insert_id.
  - exists [], [], (Raise e).
    intros w lines last_line last_date lastObs dt Hl Hlast Hsplit Hdt.
    unfold FindOutHowFullTheDamIs.
    unfold mbind, M_bind, lift. rewrite Hdc.
    now rewrite appended_nothing.
Qed.

End PolygonEffects.

(** C3 (as the code has it): for a shapefile of exactly 3 polygons the chunk
    size is [ceil(3/32) + 1 = 2], so chunk index 1 selects the slice [[0, 2)]
    and the invocation processes the first two polygons, in order. *)
Theorem three_polygons_first_chunk (E : Env) (a b c : shape) :
  ChunkSize 3 = 2
  /\ shapessubset [a; b; c] 1 = [a; b]
  /\ forall w : world,
       script E "1" [a; b; c] w
       = (print ("Reading in " ++ shape_file)%string ;;
          find_lastline lastDateLog (-1) ;;
          print "Working on chunk 1" ;;
          print "The index we will use is (0, 2)" ;;
          FindOutHowFullTheDamIs E a ;;
          FindOutHowFullTheDamIs E b ;;
          mret ()) w.
Proof. split; [reflexivity|]. split; [reflexivity|]. intros w. reflexivity. Qed.

(** An invocation with argument 1 on three polygons: the third polygon is
    never started. *)
Example invocation_chunk_1 :
  let run := script Fixture.env "1" [Fixture.dam7; Fixture.dam8; Fixture.dam9]
               Fixture.checkpointed in
  snd run = Ok ()
  /\ stdout (fst run)
     = [("Reading in " ++ shape_file)%string; "Working on chunk 1";
        "The index we will use is (0, 2)"; "7"; "8"]
  /\ files (fst run) !! output_path "9" = files Fixture.checkpointed !! output_path "9".
Proof. repeat split; vm_compute; reflexivity. Qed.

(** The rows this script appends have three fields, and line 85 unpacks the
    last line into two names: a second run over a file that received rows
    ends with [ValueError] at the checkpoint read. *)
Example second_run_checkpoint :
  let once := main_loop Fixture.env [Fixture.dam7] Fixture.checkpointed in
  snd once = Ok ()
  /\ snd (main_loop Fixture.env [Fixture.dam7] (fst once)) = Raise ValueError.
Proof. repeat split; vm_compute; reflexivity. Qed.

(** C3 as stated fails: with 3 polygons, chunk index 1 is not the first
    polygon alone. *)
Lemma three_polygons_not_only_first :
  shapessubset [Fixture.dam7; Fixture.dam8; Fixture.dam9] 1 <> [Fixture.dam7].
Proof. discriminate. Qed.

(** C4 as stated fails: an exception of the checkpoint read is not caught;
    the invocation ends with it, nothing is logged for the polygon beyond its
    identifier, and the next polygon is never started. *)
Lemma checkpoint_exception_ends_invocation :
  snd (main_loop Fixture.env [Fixture.dam7; Fixture.dam8] Fixture.no_checkpoint)
  = Raise FileNotFoundError
  /\ stdout (fst (main_loop Fixture.env [Fixture.dam7; Fixture.dam8] Fixture.no_checkpoint))
     = ["7"].
Proof. split; vm_compute; reflexivity. Qed.

(** C4 (as the code has it): for a polygon whose connection, checkpoint read
    and query succeed, whatever the filter-and-write block does, raising
    included, the polygon ends normally: the lines the block wrote stay at the
    end of the polygon's file, an exception is logged with the polygon
    identifier, and the loop goes on with the next polygon. *)
Theorem filter_write_exception_is_skipped (E : Env) (s : shape) (rest : list shape)
    (w : world) (lines : list string) (last_line last_date lastObs : string)
    (dt : datetime) (WOFL : list timestep) :
  Datacube E = Ok () ->
  files w !! output_path (ID s) = Some lines ->
  index lines (-1) = Ok last_line ->
  split "," last_line = [last_date; lastObs] ->
  strptime E last_date = Ok dt ->
  load_masked E {| geopolygon := geometry s; time_range := None |} = Ok WOFL ->
  exists c rows r,
    capacity_loop WOFL empty_capacity = Ok c
    /\ filter_and_write E (ID s) WOFL c (appended (output_path (ID s)) lines [] [ID s] w)
       = (appended (output_path (ID s)) lines rows [ID s] w, r)
    /\ FindOutHowFullTheDamIs E s w
       = (appended (output_path (ID s)) lines rows (ID s :: caught_log s r) w, Ok ())
    /\ main_loop E (s :: rest) w
       = main_loop E rest (appended (output_path (ID s)) lines rows (ID s :: caught_log s r) w).
Proof.
  intros Hdc Hl Hlast Hsplit Hdt Hload.
  destruct (FindOut_loaded E s WOFL Hdc Hload) as (c & rows & r & Hc & Hbody & Hrun).
  exists c, rows, r. split; [exact Hc|].
  specialize (Hrun w lines last_line last_date lastObs dt Hl Hlast Hsplit Hdt).
  split; [|split; [exact Hrun|]].
  - erewrite Hbody by (simpl; apply lookup_insert_eq).
    unfold appended. simpl. now rewrite insert_insert_eq, app_nil_r.
  - unfold main_loop. simpl. unfold mbind at 1, M_bind at 1. now rewrite Hrun.
Qed.

Lemma filter_write_exception_is_skipped_witness :
  exists c rows r,
    capacity_loop Fixture.slices empty_capacity = Ok c
    /\ filter_and_write Fixture.env_disk_full "7" Fixture.slices c
         (appended (output_path "7") ["2018-08-01 00:00:00.000000,75.0"] [] ["7"]
            Fixture.checkpointed)
       = (appended (output_path "7") ["2018-08-01 00:00:00.000000,75.0"] rows ["7"]
            Fixture.checkpointed, r)
    /\ FindOutHowFullTheDamIs Fixture.env_disk_full Fixture.dam7 Fixture.checkpointed
       = (appended (output_path "7") ["2018-08-01 00:00:00.000000,75.0"] rows
            ("7" :: caught_log Fixture.dam7 r) Fixture.checkpointed, Ok ())
    /\ main_loop Fixture.env_disk_full [Fixture.dam7; Fixture.dam8] Fixture.checkpointed
       = main_loop Fixture.env_disk_full [Fixture.dam8]
           (appended (output_path "7") ["2018-08-01 00:00:00.000000,75.0"] rows
              ("7" :: caught_log Fixture.dam7 r) Fixture.checkpointed).
Proof.
  apply (filter_write_exception_is_skipped Fixture.env_disk_full Fixture.dam7
           [Fixture.dam8] Fixture.checkpointed
           ["2018-08-01 00:00:00.000000,75.0"]
           "2018-08-01 00:00:00.000000,75.0" "2018-08-01 00:00:00.000000" "75.0"
           {| year := 2018; month := 8; day := 1; hour := 0; minute := 0;
              second := 0; microsecond := 0 |}
           Fixture.slices); reflexivity.
Defined.

(** When the second row of a file cannot be written, the first row stays in
    the file, the failure is logged with the identifier, and the next polygon
    is processed. *)
Example disk_full_run :
  let run := main_loop Fixture.env_disk_full [Fixture.dam7; Fixture.dam8]
               Fixture.checkpointed in
  snd run = Ok ()
  /\ stdout (fst run)
     = ["7"; "This polygon isn't working...: 7"; "8"; "This polygon isn't working...: 8"]
  /\ files (fst run) !! output_path "7"
     = Some ["2018-08-01 00:00:00.000000,75.0"; "100,3,300/4"].
Proof. repeat split; vm_compute; reflexivity. Qed.

(** C10: the timestamp parsed from the last line of a polygon's output file
    is not used: for two worlds whose checkpoints both parse, processing the
    same polygon with the same collaborators appends the same rows, prints the
    same lines and ends in the same way. *)
Theorem checkpoint_timestamp_unused (E : Env) (s : shape) (w1 w2 : world)
    (lines1 lines2 : list string) (last1 last2 date1 date2 obs1 obs2 : string)
    (dt1 dt2 : datetime) :
  files w1 !! output_path (ID s) = Some lines1 ->
  index lines1 (-1) = Ok last1 ->
  split "," last1 = [date1; obs1] ->
  strptime E date1 = Ok dt1 ->
  files w2 !! output_path (ID s) = Some lines2 ->
  index lines2 (-1) = Ok last2 ->
  split "," last2 = [date2; obs2] ->
  strptime E date2 = Ok dt2 ->
  exists rows out r,
    FindOutHowFullTheDamIs E s w1 = (appended (output_path (ID s)) lines1 rows out w1, r)
    /\ FindOutHowFullTheDamIs E s w2 = (appended (output_path (ID s)) lines2 rows out w2, r).
Proof.
  intros Hl1 Hi1 Hs1 Hd1 Hl2 Hi2 Hs2 Hd2.
  destruct (FindOut_checkpoint_free E s) as (rows & out & r & Hrun).
  exists rows, out, r. split; eapply Hrun; eassumption.
Qed.

Lemma checkpoint_timestamp_unused_witness :
  exists rows out r,
    FindOutHowFullTheDamIs Fixture.env Fixture.dam7 Fixture.checkpointed
    = (appended (output_path "7") ["2018-08-01 00:00:00.000000,75.0"] rows out
         Fixture.checkpointed, r)
    /\ FindOutHowFullTheDamIs Fixture.env Fixture.dam7 Fixture.checkpointed_later
       = (appended (output_path "7")
            ["2018-08-01 00:00:00.000000,75.0"; "2018-09-17 00:00:00.000000,100.0"]
            rows out Fixture.checkpointed_later, r).
Proof.
  apply (checkpoint_timestamp_unused Fixture.env Fixture.dam7
           Fixture.checkpointed Fixture.checkpointed_later
           ["2018-08-01 00:00:00.000000,75.0"]
           ["2018-08-01 00:00:00.000000,75.0"; "2018-09-17 00:00:00.000000,100.0"]
           "2018-08-01 00:00:00.000000,75.0" "2018-09-17 00:00:00.000000,100.0"
           "2018-08-01 00:00:00.000000" "2018-09-17 00:00:00.000000" "75.0" "100.0"
           {| year := 2018; month := 8; day := 1; hour := 0; minute := 0;
              second := 0; microsecond := 0 |}
           {| year := 2018; month := 8; day := 1; hour := 0; minute := 0;
              second := 0; microsecond := 0 |}); reflexivity.
Defined.

(** ** Pipeline B *)

(** Turns the comparisons of a goal about [threshold] into integer ones and
    decides them case by case. *)
Ltac threshold_cases :=
  unfold SICA.threshold, SICA.ge, SICA.lt, Qltb, Qle_bool, Qle, Qlt in *;
  simpl in *;
  repeat match goal with
         | |- context [Z.leb ?a ?b] => destruct (Z.leb_spec a b); simpl
         end;
  try reflexivity; try lia.

(** C5: the threshold mapping sends a per-segment mean [v >= 0.8] to 80,
    [0.70 <= v < 0.8] to 70, [0.60 <= v < 0.70] to 60, [0.55 <= v < 0.60] to 55
    (0.55 included) and [v < 0.55] to the no-data value; in particular
    0.85, 0.75, 0.62, 0.56, 0.55 and 0.50 go to 80, 70, 60, 55, 55 and no-data. *)
Theorem threshold_bands (v : Q) :
  ((0.8 <= v)%Q -> SICA.threshold (SICA.Num v) = SICA.Num 80)
  /\ ((0.70 <= v < 0.8)%Q -> SICA.threshold (SICA.Num v) = SICA.Num 70)
  /\ ((0.60 <= v < 0.70)%Q -> SICA.threshold (SICA.Num v) = SICA.Num 60)
  /\ ((0.55 <= v < 0.60)%Q -> SICA.threshold (SICA.Num v) = SICA.Num 55)
  /\ ((v < 0.55)%Q -> SICA.threshold (SICA.Num v) = SICA.nan)
  /\ map SICA.threshold
       [SICA.Num 0.85; SICA.Num 0.75; SICA.Num 0.62; SICA.Num 0.56; SICA.Num 0.55;
        SICA.Num 0.50]
     = [SICA.Num 80; SICA.Num 70; SICA.Num 60; SICA.Num 55; SICA.Num 55; SICA.nan].
Proof.
  destruct v as [p q].
  split; [|split; [|split; [|split; [|split]]]]; try intros H; threshold_cases.
Qed.

Lemma threshold_bands_witness :
  SICA.threshold (SICA.Num 0.85) = SICA.Num 80
  /\ SICA.threshold (SICA.Num 0.75) = SICA.Num 70
  /\ SICA.threshold (SICA.Num 0.62) = SICA.Num 60
  /\ SICA.threshold (SICA.Num 0.55) = SICA.Num 55
  /\ SICA.threshold (SICA.Num 0.50) = SICA.nan.
Proof.
  split; [|split; [|split; [|split]]].
  - apply (threshold_bands 0.85). discriminate.
  - apply (threshold_bands 0.75). split; [discriminate | reflexivity].
  - apply (threshold_bands 0.62). split; [discriminate | reflexivity].
  - apply (threshold_bands 0.55). split; [discriminate | reflexivity].
  - apply (threshold_bands 0.50). reflexivity.
Defined.

(** C6: a polygonized feature is kept in the final shapefile exactly when its
    area is at most 50,000,000, its class value DN is 60 and its area exceeds
    100,000; a class-60 feature of area 150,000 is kept, a class-60 feature of
    area 90,000 and a class-70 feature of area 150,000 are dropped. *)
Theorem polygon_filter_iff (polygons : list SICA.feature) (f : SICA.feature) :
  (In f (map SICA.feat (SICA.filter_polygons polygons))
   <-> In f polygons
       /\ (SICA.geometry_area f <= 50000000)%Q
       /\ SICA.DN f = 60
       /\ (100000 < SICA.geometry_area f)%Q)
  /\ map SICA.feat
       (SICA.filter_polygons
          [ {| SICA.DN := 60; SICA.geometry_area := 150000 |};
            {| SICA.DN := 60; SICA.geometry_area := 90000 |};
            {| SICA.DN := 70; SICA.geometry_area := 150000 |} ])
     = [ {| SICA.DN := 60; SICA.geometry_area := 150000 |} ].
Proof.
  split; [|reflexivity].
  unfold SICA.filter_polygons. rewrite in_map_iff. split.
  - intros (r & <- & Hr).
    apply filter_In in Hr as (Hr & Harea).
    apply filter_In in Hr as (Hr & Hdn).
    apply filter_In in Hr as (Hr & Hsmall).
    apply in_map_iff in Hr as (f' & <- & Hin). simpl in *.
    apply Qltb_lt in Harea. apply Qle_bool_iff in Hsmall. apply Z.eqb_eq in Hdn.
    auto.
  - intros (Hin & Hsmall & Hdn & Harea).
    exists {| SICA.feat := f; SICA.area := SICA.geometry_area f |}.
    split; [reflexivity|].
    repeat (apply filter_In; split); simpl.
    + apply in_map_iff. eauto.
    + now apply Qle_bool_iff.
    + now apply Z.eqb_eq.
    + now apply Qltb_lt.
Qed.

(** C9 (as the code has it): with season "Summer" and the year text "2010"
    at characters 13 to 16 of the file name, the label is "Summer2010_11": the
    four-digit year is kept and only the following year is cut to two digits. *)
Theorem summer_label (tif : string) :
  str_slice tif (Some 13) (Some 17) = "2010"%string ->
  SICA.year_label SICA.season tif = Ok "Summer2010_11"%string
  /\ SICA.directory tif
     = Ok "/g/data/r78/cb3058/dea-notebooks/ICE_project/results/SA_MDB/SA_MDB_Summer2010_11"%string.
Proof.
  intros Hyear. unfold SICA.directory, SICA.year_label, SICA.season. simpl String.eqb.
  cbv iota. rewrite Hyear. split; reflexivity.
Qed.

Lemma summer_label_witness :
  SICA.year_label SICA.season "ndvi_max_SAM_20101101.tif" = Ok "Summer2010_11"%string
  /\ SICA.directory "ndvi_max_SAM_20101101.tif"
     = Ok "/g/data/r78/cb3058/dea-notebooks/ICE_project/results/SA_MDB/SA_MDB_Summer2010_11"%string.
Proof. apply (summer_label "ndvi_max_SAM_20101101.tif"). reflexivity. Defined.

(** C9 as stated fails: the label is not "Summer10_11". *)
Lemma summer_label_not_short :
  str_slice "ndvi_max_SAM_20101101.tif" (Some 13) (Some 17) = "2010"%string
  /\ SICA.year_label SICA.season "ndvi_max_SAM_20101101.tif" <> Ok "Summer10_11"%string.
Proof. split; [reflexivity | discriminate]. Qed.

(* ================================================================== *)
(** * Further properties of the two scripts *)

(** ** Chunk selector: sizes, idle workers, indices below 1 *)
Section ChunkEdges.
Context {A : Type}.
Implicit Types (shapes : list A) (part : Z).


End ChunkEdges.

(** X1: whatever the index argument is (also zero or negative), a chunk never
    holds more than [ChunkSize] polygons. *)
Theorem chunk_length_le {A : Type} (shapes : list A) (part : Z) :
  Z.of_nat (length (shapessubset shapes part)) <= ChunkSize (Z.of_nat (length shapes)).
Proof.
  unfold shapessubset, slice, clamp_index.
  pose proof (ChunkSize_pos (Z.of_nat (length shapes)) ltac:(lia)) as Hcs.
  set (cs := ChunkSize (Z.of_nat (length shapes))) in *.
  set (n := Z.of_nat (length shapes)).
  remember ((part - 1) * cs) as a eqn:Ea.
  replace (part * cs) with (a + cs) by (subst a; ring).
  rewrite length_firstn.
  destruct (Z.ltb_spec a 0); destruct (Z.ltb_spec (a + cs) 0); lia.
Qed.

(** X2: the index 0 selects no polygon at all, and an index [part >= 1]
    selects none exactly when the chunks before it already cover the list,
    that is when [count <= (part - 1) * ChunkSize]. *)
Theorem chunk_empty_iff {A : Type} (shapes : list A) :
  shapessubset shapes 0 = []
  /\ forall part, 1 <= part ->
       (shapessubset shapes part = []
        <-> Z.of_nat (length shapes)
            <= (part - 1) * ChunkSize (Z.of_nat (length shapes))).
Proof.
  pose proof (ChunkSize_pos (Z.of_nat (length shapes)) ltac:(lia)) as Hcs.
  split.
  - unfold shapessubset, slice, clamp_index.
    set (cs := ChunkSize (Z.of_nat (length shapes))) in *.
    destruct (Z.ltb_spec ((0 - 1) * cs) 0); [|lia].
    destruct (Z.ltb_spec (0 * cs) 0); [lia|].
    replace (Z.to_nat _) with 0%nat by lia. reflexivity.
  - intros part Hpart. rewrite shapessubset_take_drop by lia. cbv zeta.
    set (cs := ChunkSize (Z.of_nat (length shapes))) in *.
    rewrite <- length_zero_iff_nil, length_take, length_drop. nia.
Qed.

Lemma chunk_empty_iff_witness :
  shapessubset (seq 0 70) 19 = []
  <-> Z.of_nat (length (seq 0 70)) <= (19 - 1) * ChunkSize (Z.of_nat (length (seq 0 70))).
Proof. apply (chunk_empty_iff (seq 0 70)). lia. Defined.

(** X3: the chunks of the indices 1, ..., m, glued in order, are the first
    [m * ChunkSize] polygons of the list. *)
Theorem chunks_prefix {A : Type} (shapes : list A) (m : nat) :
  concat (map (shapessubset shapes) (map Z.of_nat (seq 1 m)))
  = firstn (m * Z.to_nat (ChunkSize (Z.of_nat (length shapes)))) shapes.
Proof.
  rewrite <- seq_shift, !map_map.
  set (cs := Z.to_nat (ChunkSize (Z.of_nat (length shapes)))).
  rewrite (map_ext _ (fun k : nat => take cs (drop (k * cs) shapes))).
  - apply concat_chunks.
  - intros k. rewrite shapessubset_take_drop by lia. cbv zeta. fold cs.
    do 3 f_equal. lia.
Qed.



(** ** Percentages and selection of the retained time slices *)
Section Selection.

Lemma index_middle {X : Type} (pre : list X) (x : X) (post : list X) :
  index (pre ++ x :: post) (Z.of_nat (length pre)) = Ok x.
Proof.
  unfold index. rewrite length_app. simpl.
  destruct (Z.ltb_spec (Z.of_nat (length pre)) 0); [lia|].
  destruct (Z.ltb_spec (Z.of_nat (length pre)) 0); [lia|].
  destruct (Z.leb_spec (Z.of_nat (length pre + S (length post))) (Z.of_nat (length pre)));
    [lia|]. simpl.
  rewrite Nat2Z.id, nth_error_app2, Nat.sub_diag by lia. reflexivity.
Qed.

(** Indexing a list by the positions that the filter retains never raises,
    and yields the entries at those positions in order. *)
Lemma select_by_mask {X : Type} (inv : list Q) : forall (pre xs : list X),
  length xs = length inv ->
  comprehension (index (pre ++ xs))
    (map fst (List.filter (fun ix : Z * Q => Qltb (snd ix) 10)
                (combine (map Z.of_nat (seq (length pre) (length inv))) inv)))
  = Ok (map snd (List.filter (fun p : Q * X => Qltb (fst p) 10) (combine inv xs))).
Proof.
  induction inv as [|y inv IH]; intros pre xs Hlen; simpl.
  - reflexivity.
  - destruct xs as [|x xs]; [discriminate|]. injection Hlen as Hlen.
    specialize (IH (pre ++ [x]) xs Hlen).
    rewrite <- app_assoc, length_app in IH. simpl in IH.
    replace (length pre + 1)%nat with (S (length pre)) in IH by lia.
    simpl. destruct (Qltb y 10); simpl.
    + rewrite index_middle. unfold mbind, result_bind. simpl.
      fold (@comprehension Z X). rewrite IH. reflexivity.
    + exact IH.
Qed.

Lemma filter_combine_map {X : Type} (f : timestep -> X) (WOFL : list timestep) :
  map snd (List.filter (fun p : Q * X => Qltb (fst p) 10)
             (combine (map UnknownPercent WOFL) (map f WOFL)))
  = map f (List.filter retained WOFL).
Proof.
  induction WOFL as [|t WOFL IH]; simpl; [reflexivity|].
  unfold retained at 1. destruct (Qltb (UnknownPercent t) 10); simpl; now rewrite IH.
Qed.

Lemma capacity_loop_acc (WOFL : list timestep) : forall acc,
  capacity_loop WOFL acc
  = Ok {| DamCapacityPc := DamCapacityPc acc ++ map WaterPercent WOFL;
          DamCapacityCt := DamCapacityCt acc ++ map MaskedWet WOFL;
          DryObserved := DryObserved acc ++ map DryPercent WOFL;
          InvalidObservations := InvalidObservations acc ++ map UnknownPercent WOFL |}.
Proof.
  induction WOFL as [|t WOFL IH]; intros acc; simpl.
  - rewrite !app_nil_r. now destruct acc.
  - unfold WaterPercent at 1, DryPercent at 1, UnknownPercent at 1.
    destruct (percentages_Ok (MaskedAll t) (MaskedWet t) (MaskedDry t)) as [[[w d] u] ->].
    simpl. rewrite IH. simpl. now rewrite <- !app_assoc.
Qed.

End Selection.

(** X5: for counts that fit together (wet and dry pixels are not negative
    and do not exceed the total), the three percentages are defined and lie
    between 0 and 100. *)
Theorem percentages_bounds (all wet dry : Z) :
  0 <= wet -> 0 <= dry -> wet + dry <= all ->
  exists w d u,
    percentages all wet dry = Ok (w, d, u)
    /\ (0 <= w <= 100)%Q /\ (0 <= d <= 100)%Q /\ (0 <= u <= 100)%Q.
Proof.
  intros Hw Hd Hall. destruct all as [|p|p]; [| |lia].
  - exists 0%Q, 0%Q, 100%Q. split; [reflexivity|]. repeat split; discriminate.
  - do 3 eexists. split; [apply percentages_nonzero; lia|].
    unfold Qle, Qdiv, Qmult, Qinv, inject_Z. simpl. repeat split; nia.
Qed.

Lemma percentages_bounds_witness :
  exists w d u,
    percentages 10 9 0 = Ok (w, d, u)
    /\ (0 <= w <= 100)%Q /\ (0 <= d <= 100)%Q /\ (0 <= u <= 100)%Q.
Proof. apply (percentages_bounds 10 9 0); lia. Defined.

Lemma capacity_loop_empty (WOFL : list timestep) :
  capacity_loop WOFL empty_capacity
  = Ok {| DamCapacityPc := map WaterPercent WOFL;
          DamCapacityCt := map MaskedWet WOFL;
          DryObserved := map DryPercent WOFL;
          InvalidObservations := map UnknownPercent WOFL |}.
Proof. apply (capacity_loop_acc WOFL empty_capacity). Qed.

(** X6: the loop over the time slices never raises, and leaves four lists
    that hold, slice by slice and in order, the wet percentage, the wet pixel
    count, the dry percentage and the indeterminate percentage; each list is
    as long as the number of time slices. *)
Theorem capacity_loop_lists (WOFL : list timestep) :
  capacity_loop WOFL empty_capacity
  = Ok {| DamCapacityPc := map WaterPercent WOFL;
          DamCapacityCt := map MaskedWet WOFL;
          DryObserved := map DryPercent WOFL;
          InvalidObservations := map UnknownPercent WOFL |}.
Proof. apply capacity_loop_empty. Qed.

Lemma select_retained {X : Type} (f : timestep -> X) (WOFL : list timestep) :
  comprehension (index (map f WOFL)) (ValidMask (map UnknownPercent WOFL))
  = Ok (map f (List.filter retained WOFL)).
Proof.
  unfold ValidMask, enumerate.
  pose proof (select_by_mask (map UnknownPercent WOFL) [] (map f WOFL)) as Hsel.
  simpl in Hsel. rewrite Hsel by now rewrite !length_map.
  now rewrite filter_combine_map.
Qed.

(** X7: selecting from a per-slice list by [ValidMask] (lines 130-132) never
    raises [IndexError], and keeps exactly the entries of the retained time
    slices, in their order. *)
Theorem valid_selection {X : Type} (f : timestep -> X) (WOFL : list timestep) :
  comprehension (index (map f WOFL)) (ValidMask (map UnknownPercent WOFL))
  = Ok (map f (List.filter retained WOFL)).
Proof. apply select_retained. Qed.

(** ** Reading the last line and writing rows *)
Section Rows.
Variable E : Env.
Implicit Types (w : world) (lines : list string) (rows : list (string * Z * Q)).

Lemma index_last_line {X : Type} (l : list X) (x : X) : index (l ++ [x]) (-1) = Ok x.
Proof.
  unfold index. rewrite length_app. simpl.
  destruct (Z.ltb_spec (-1 + Z.of_nat (length l + 1)) 0); [lia|].
  destruct (Z.leb_spec (Z.of_nat (length l + 1)) (-1 + Z.of_nat (length l + 1))); [lia|].
  simpl. replace (Z.to_nat _) with (length l) by lia.
  now rewrite nth_error_app2, Nat.sub_diag by lia.
Qed.

Lemma write_rows_no_fault path rows : forall k w lines,
  (forall i, (i < length rows)%nat -> writerow_fault E path (k + i) = None) ->
  files w !! path = Some lines ->
  write_rows E path k rows w
  = ({| files := <[path := lines ++ map (row_text E) rows]> (files w);
        stdout := stdout w |}, Ok ()).
Proof.
  induction rows as [|[[d ct] pc] rows IH]; intros k w lines Hok Hl; simpl.
  - now rewrite app_nil_r, written_nothing.
  - pose proof (Hok 0%nat ltac:(simpl; lia)) as H0.
    rewrite Nat.add_0_r in H0. rewrite H0.
    unfold mbind, M_bind. rewrite Hl. simpl.
    erewrite IH; [| |simpl; apply lookup_insert_eq].
    + simpl. now rewrite insert_insert_eq, <- app_assoc.
    + intros i Hi. replace (S k + i)%nat with (k + S i)%nat by lia.
      apply Hok. simpl. lia.
Qed.

Lemma write_rows_fault path rows : forall (j k : nat) w lines e,
  (j < length rows)%nat ->
  (forall i, (i < j)%nat -> writerow_fault E path (k + i) = None) ->
  writerow_fault E path (k + j) = Some e ->
  files w !! path = Some lines ->
  write_rows E path k rows w
  = ({| files := <[path := lines ++ map (row_text E) (firstn j rows)]> (files w);
        stdout := stdout w |}, Raise e).
Proof.
  induction rows as [|[[d ct] pc] rows IH]; intros j k w lines e Hj Hok He Hl; simpl in *.
  - lia.
  - destruct j as [|j].
    + rewrite Nat.add_0_r in He. rewrite He. simpl.
      unfold raise. now rewrite app_nil_r, written_nothing.
    + pose proof (Hok 0%nat ltac:(lia)) as H0.
      rewrite Nat.add_0_r in H0. rewrite H0.
      unfold mbind, M_bind. rewrite Hl. simpl.
      erewrite (IH j (S k)); [| | | |simpl; apply lookup_insert_eq].
      * simpl. now rewrite insert_insert_eq, <- app_assoc.
      * lia.
      * intros i Hi. replace (S k + i)%nat with (k + S i)%nat by lia.
        apply Hok. lia.
      * replace (S k + j)%nat with (k + S j)%nat by lia. exact He.
Qed.

End Rows.

(** X8: reading the last line of a file leaves the world as it is; it raises
    [FileNotFoundError] when the file is missing, [IndexError] when the file
    has no line, and otherwise gives the last line. *)
Theorem find_lastline_cases (fname : string) (w : world) :
  (files w !! fname = None ->
   find_lastline fname (-1) w = (w, Raise FileNotFoundError))
  /\ (files w !! fname = Some [] ->
      find_lastline fname (-1) w = (w, Raise IndexError))
  /\ (forall lines last, files w !! fname = Some (lines ++ [last]) ->
      find_lastline fname (-1) w = (w, Ok last)).
Proof.
  unfold find_lastline. split; [|split].
  - now intros ->.
  - now intros ->.
  - intros lines last ->. now rewrite index_last_line.
Qed.

Lemma find_lastline_cases_witness :
  find_lastline (output_path "7") (-1) Fixture.no_checkpoint
  = (Fixture.no_checkpoint, Raise FileNotFoundError)
  /\ find_lastline (output_path "7") (-1) Fixture.empty_file
     = (Fixture.empty_file, Raise IndexError)
  /\ find_lastline (output_path "7") (-1) Fixture.checkpointed_later
     = (Fixture.checkpointed_later, Ok "2018-09-17 00:00:00.000000,100.0"%string).
Proof.
  split; [|split].
  - apply (find_lastline_cases (output_path "7") Fixture.no_checkpoint). reflexivity.
  - apply (find_lastline_cases (output_path "7") Fixture.empty_file). reflexivity.
  - apply (proj2 (proj2 (find_lastline_cases (output_path "7") Fixture.checkpointed_later))
             ["2018-08-01 00:00:00.000000,75.0"]%string).
    reflexivity.
Defined.



(** X10: when the row number [j] is the first whose [writerow] fails, the
    rows before it are in the file, in order, the failing row and the rows
    after it are not, and the exception of the failing row is raised. *)
Theorem write_rows_until_fault (E : Env) (path : string) (rows : list (string * Z * Q))
    (j : nat) (e : exn) (w : world) (lines : list string) :
  (j < length rows)%nat ->
  (forall i, (i < j)%nat -> writerow_fault E path i = None) ->
  writerow_fault E path j = Some e ->
  files w !! path = Some lines ->
  write_rows E path 0 rows w
  = ({| files := <[path := lines ++ map (row_text E) (firstn j rows)]> (files w);
        stdout := stdout w |}, Raise e).
Proof. intros Hj Hok He Hl. now apply (write_rows_fault E path rows j 0%nat). Qed.

Lemma write_rows_until_fault_witness :
  write_rows Fixture.env_disk_full (output_path "7") 0
    [("100", 3, 75%Q); ("400", 2, 50%Q)]%string Fixture.checkpointed
  = ({| files := <[output_path "7" :=
                     ["2018-08-01 00:00:00.000000,75.0"]
                     ++ map (row_text Fixture.env_disk_full)
                          (firstn 1 [("100", 3, 75%Q); ("400", 2, 50%Q)]%string)]>
                   (files Fixture.checkpointed);
        stdout := stdout Fixture.checkpointed |}, Raise (OSError "disk full")).
Proof.
  apply (write_rows_until_fault Fixture.env_disk_full (output_path "7") _ 1%nat).
  - simpl. lia.
  - intros i Hi. assert (i = 0%nat) as -> by lia. reflexivity.
  - reflexivity.
  - reflexivity.
Defined.

(** ** What one polygon and a whole chunk can change *)
Section Footprint.
Variable E : Env.
Implicit Types (w : world) (s : shape) (shapes : list shape).

(** The world a polygon leaves: more printed lines, and either the same
    files or more lines at the end of the polygon's own, existing, file; a
    polygon that raises has not written. *)
Lemma FindOut_shape s w :
  exists w' r,
    FindOutHowFullTheDamIs E s w = (w', r)
    /\ (exists out, stdout w' = stdout w ++ out)
    /\ (files w' = files w
        \/ exists lines ws,
             files w !! output_path (ID s) = Some lines
             /\ files w' = <[output_path (ID s) := lines ++ ws]> (files w))
    /\ (forall e, r = Raise e -> files w' = files w).
Proof.
  assert (Hstop : forall (out : list string) (e : exn),
    exists w' r,
      ({| files := files w; stdout := stdout w ++ out |}, @Raise () e) = (w', r)
      /\ (exists out, stdout w' = stdout w ++ out)
      /\ (files w' = files w
          \/ exists lines ws,
               files w !! output_path (ID s) = Some lines
               /\ files w' = <[output_path (ID s) := lines ++ ws]> (files w))
      /\ (forall e, r = Raise e -> files w' = files w)).
  { intros out e. do 2 eexists. split; [reflexivity|]. simpl. eauto. }
  unfold FindOutHowFullTheDamIs.
  unfold mbind, M_bind, lift, print, find_lastline, try_except, mret, M_ret, raise.
  destruct (Datacube E) as [[]|e].
  2:{ destruct (Hstop [] e) as (w' & r & Heq & H). rewrite app_nil_r in Heq.
      exists w', r. split; [|exact H]. rewrite <- Heq. now destruct w. }
  simpl. destruct (files w !! output_path (ID s)) as [lines|] eqn:Hl; [|apply Hstop].
  destruct (index lines (-1)) as [last_line|e]; [|apply Hstop].
  destruct (split "," last_line) as [|a [|b [|c l]]]; try apply Hstop.
  destruct (strptime E a) as [dt|e]; [|apply Hstop].
  destruct (load_masked E _) as [WOFL|e]; [|apply Hstop].
  rewrite capacity_loop_empty.
  destruct (filter_and_write_appends E (ID s) WOFL
              {| DamCapacityPc := map WaterPercent WOFL;
                 DamCapacityCt := map MaskedWet WOFL;
                 DryObserved := map DryPercent WOFL;
                 InvalidObservations := map UnknownPercent WOFL |})
    as (ws & r & Hbody).
  erewrite Hbody by (simpl; exact Hl). simpl.
  destruct r as [[]|e]; do 2 eexists; (split; [reflexivity|]); simpl;
    (split; [rewrite <- ?app_assoc; eauto|]);
    (split; [right; eauto | intros e' [=]]).
Qed.




Lemma FindOut_frame s w (p : string) :
  p <> output_path (ID s) ->
  files (fst (FindOutHowFullTheDamIs E s w)) !! p = files w !! p.
Proof.
  intros Hp. destruct (FindOut_shape s w) as (w' & r & -> & _ & Hfiles & _). simpl.
  destruct Hfiles as [->|(lines & ws & _ & ->)]; [reflexivity|].
  now rewrite lookup_insert_ne.
Qed.

Lemma main_loop_cons s shapes w :
  main_loop E (s :: shapes) w
  = match FindOutHowFullTheDamIs E s w with
    | (w', Ok _) => main_loop E shapes w'
    | (w', Raise e) => (w', Raise e)
    end.
Proof. reflexivity. Qed.

End Footprint.

(** X11: a polygon whose processing raises has written nothing: every file is
    as it was before the polygon was started. *)
Theorem raising_polygon_writes_nothing (E : Env) (s : shape) (w : world) (e : exn) :
  snd (FindOutHowFullTheDamIs E s w) = Raise e ->
  files (fst (FindOutHowFullTheDamIs E s w)) = files w.
Proof.
  destruct (FindOut_shape E s w) as (w' & r & -> & _ & _ & Hraise). simpl.
  apply Hraise.
Qed.

Lemma raising_polygon_writes_nothing_witness :
  files (fst (FindOutHowFullTheDamIs Fixture.env Fixture.dam7 Fixture.no_checkpoint))
  = files Fixture.no_checkpoint.
Proof.
  apply (raising_polygon_writes_nothing Fixture.env Fixture.dam7 Fixture.no_checkpoint
           FileNotFoundError).
  reflexivity.
Defined.


(** X13: processing a chunk leaves every file alone that is not the output
    file of one of the chunk's polygons. *)
Theorem main_loop_other_files (E : Env) (shapes : list shape) (w : world) (p : string) :
  (forall s, In s shapes -> p <> output_path (ID s)) ->
  files (fst (main_loop E shapes w)) !! p = files w !! p.
Proof.
  revert w. induction shapes as [|s shapes IH]; intros w Hp; [reflexivity|].
  rewrite main_loop_cons.
  pose proof (FindOut_frame E s w p (Hp s (or_introl eq_refl))) as Hs.
  destruct (FindOutHowFullTheDamIs E s w) as [w' [[]|e]]; simpl in *.
  - rewrite IH; [exact Hs|]. intros s' Hs'. apply Hp. now right.
  - exact Hs.
Qed.

Lemma main_loop_other_files_witness :
  files (fst (main_loop Fixture.env [Fixture.dam7; Fixture.dam8] Fixture.checkpointed))
    !! output_path "9"
  = files Fixture.checkpointed !! output_path "9".
Proof.
  apply (main_loop_other_files Fixture.env [Fixture.dam7; Fixture.dam8]).
  intros s [<-|[<-|[]]]; discriminate.
Defined.

(** X14: processing the polygons [xs ++ ys] is processing [xs] and then, if
    that ended normally, [ys] from the world [xs] left; if a polygon of [xs]
    raised, the loop ends there and no polygon of [ys] is started. *)
Theorem main_loop_app (E : Env) (xs ys : list shape) (w : world) :
  main_loop E (xs ++ ys) w
  = match main_loop E xs w with
    | (w', Ok _) => main_loop E ys w'
    | (w', Raise e) => (w', Raise e)
    end.
Proof.
  revert w. induction xs as [|s xs IH]; intros w; [reflexivity|].
  simpl app. rewrite !main_loop_cons.
  destruct (FindOutHowFullTheDamIs E s w) as [w' [[]|e]]; [apply IH | reflexivity].
Qed.

(** ** The checkpoint line and the start of the script *)
Section Checkpoint.

Lemma split_length (sep : ascii) (s : string) :
  length (split sep s) = S (count_occ ascii_dec (list_ascii_of_string s) sep).
Proof.
  induction s as [|c s IH]; simpl; [reflexivity|].
  destruct (Ascii.eqb_spec c sep) as [->|Hne].
  - simpl. rewrite IH. now destruct (ascii_dec sep sep).
  - destruct (ascii_dec c sep); [contradiction|].
    destruct (split sep s); simpl in *; [discriminate | exact IH].
Qed.

End Checkpoint.

Lemma FindOut_bad_checkpoint (E : Env) (s : shape) (w : world)
    (lines : list string) (last_line : string) :
  Datacube E = Ok () ->
  files w !! output_path (ID s) = Some lines ->
  index lines (-1) = Ok last_line ->
  count_occ ascii_dec (list_ascii_of_string last_line) ","%char <> 1%nat ->
  FindOutHowFullTheDamIs E s w
  = ({| files := files w; stdout := stdout w ++ [ID s] |}, Raise ValueError).
Proof.
  intros Hdc Hl Hlast Hcommas.
  pose proof (split_length "," last_line) as Hlen.
  unfold FindOutHowFullTheDamIs.
  unfold mbind, M_bind, lift, print, find_lastline, raise.
  rewrite Hdc. simpl. rewrite Hl, Hlast.
  destruct (split "," last_line) as [|a [|b [|c l]]]; simpl in Hlen;
    try reflexivity.
  exfalso. apply Hcommas. lia.
Qed.

(** X15: a polygon whose output file ends in a line that does not hold
    exactly one comma cannot be processed: after the connection succeeded
    and the identifier was printed, line 85 raises [ValueError], and no file
    is changed. *)
Theorem checkpoint_needs_one_comma (E : Env) (s : shape) (w : world)
    (lines : list string) (last_line : string) :
  Datacube E = Ok () ->
  files w !! output_path (ID s) = Some lines ->
  index lines (-1) = Ok last_line ->
  count_occ ascii_dec (list_ascii_of_string last_line) ","%char <> 1%nat ->
  FindOutHowFullTheDamIs E s w
  = ({| files := files w; stdout := stdout w ++ [ID s] |}, Raise ValueError).
Proof. apply FindOut_bad_checkpoint. Qed.

Lemma checkpoint_needs_one_comma_witness :
  FindOutHowFullTheDamIs Fixture.env Fixture.dam7 Fixture.three_fields
  = ({| files := files Fixture.three_fields;
        stdout := stdout Fixture.three_fields ++ ["7"] |}, Raise ValueError).
Proof.
  apply (checkpoint_needs_one_comma Fixture.env Fixture.dam7 Fixture.three_fields
           ["2018-08-01 00:00:00.000000,75.0"; "100,3,300/4"]%string "100,3,300/4");
    [reflexivity | reflexivity | reflexivity | vm_compute; lia].
Defined.

(** X16: the script stops before any polygon is started, with the files
    untouched and only its first line printed, when the log of line 39 is
    missing ([FileNotFoundError]), when that log is empty ([IndexError]), and
    when the command-line argument is not an integer (the exception of
    [int]). *)
Theorem script_stops_early (E : Env) (argv1 : string) (ShapesList : list shape)
    (w : world) :
  (files w !! lastDateLog = None ->
   script E argv1 ShapesList w
   = ({| files := files w; stdout := stdout w ++ [("Reading in " ++ shape_file)%string] |},
      Raise FileNotFoundError))
  /\ (files w !! lastDateLog = Some [] ->
      script E argv1 ShapesList w
      = ({| files := files w; stdout := stdout w ++ [("Reading in " ++ shape_file)%string] |},
         Raise IndexError))
  /\ (forall lines last e,
        files w !! lastDateLog = Some (lines ++ [last]) ->
        int argv1 = Raise e ->
        script E argv1 ShapesList w
        = ({| files := files w; stdout := stdout w ++ [("Reading in " ++ shape_file)%string] |},
           Raise e)).
Proof.
  unfold script. unfold mbind, M_bind, lift, print, find_lastline. simpl.
  split; [|split].
  - now intros ->.
  - now intros ->.
  - intros lines last e -> ->. now rewrite index_last_line.
Qed.

Lemma script_stops_early_witness :
  script Fixture.env "1" [Fixture.dam7] Fixture.no_checkpoint
  = ({| files := files Fixture.no_checkpoint;
        stdout := stdout Fixture.no_checkpoint ++ [("Reading in " ++ shape_file)%string] |},
     Raise FileNotFoundError)
  /\ script Fixture.env "1" [Fixture.dam7] Fixture.empty_log
     = ({| files := files Fixture.empty_log;
           stdout := stdout Fixture.empty_log ++ [("Reading in " ++ shape_file)%string] |},
        Raise IndexError)
  /\ script Fixture.env "one" [Fixture.dam7] Fixture.checkpointed
     = ({| files := files Fixture.checkpointed;
           stdout := stdout Fixture.checkpointed ++ [("Reading in " ++ shape_file)%string] |},
        Raise ValueError).
Proof.
  split; [|split].
  - apply (script_stops_early Fixture.env "1" [Fixture.dam7] Fixture.no_checkpoint).
    reflexivity.
  - apply (script_stops_early Fixture.env "1" [Fixture.dam7] Fixture.empty_log).
    reflexivity.
  - apply (proj2 (proj2 (script_stops_early Fixture.env "one" [Fixture.dam7]
                           Fixture.checkpointed)) [] "2018-08-01 00:00:00"%string);
      reflexivity.
Defined.

(** ** The rows a polygon appends *)
Section AppendedRows.
Variable E : Env.
Implicit Types (w : world) (lines : list string) (WOFL : list timestep).




End AppendedRows.



(** ** A run without failures *)
Section CleanRun.

Lemma split_line (l rest : string) :
  no_newline l = true ->
  split "010" (l ++ String "010" rest) = l :: split "010" rest.
Proof.
  unfold no_newline. induction l as [|c l IH]; cbn -[Ascii.eqb]; intros Hl.
  - reflexivity.
  - apply negb_true_iff, orb_false_iff in Hl as (Hc & Hl).
    change (String c l ++ String "010" rest)%string
      with (String c (l ++ String "010" rest))%string.
    cbn [split]. rewrite Ascii.eqb_sym, Hc, IH; [reflexivity|].
    now rewrite Hl.
Qed.

Lemma split_unlines (ls : list string) :
  Forall (fun l => no_newline l = true) ls ->
  split "010" (unlines ls) = ls ++ [EmptyString].
Proof.
  induction 1 as [|l ls Hl _ IH]; simpl; [reflexivity|].
  now rewrite split_line, IH.
Qed.

Lemma zip3_maps {T X Y Z' : Type} (a : T -> X) (b : T -> Y) (c : T -> Z')
    (extra : list X) (R : list T) :
  zip3 (map a R ++ extra) (map b R) (map c R) = map (fun t => (a t, b t, c t)) R.
Proof.
  induction R as [|t R IH]; simpl; [now destruct extra | now rewrite IH].
Qed.

Lemma dropna_stamps (stamp : timestep -> Z) (R : list timestep) :
  Forall (fun t => time t = Some (stamp t)) R ->
  dropna (map time R) = map stamp R.
Proof.
  induction 1 as [|t R Ht _ IH]; simpl; [reflexivity|].
  unfold dropna in *. simpl. rewrite Ht. simpl. now rewrite IH.
Qed.

End CleanRun.

Lemma FindOut_clean_run (E : Env) (s : shape) (w : world)
    (lines : list string) (last_line last_date lastObs : string)
    (dt : datetime) (WOFL : list timestep)
    (stamp : timestep -> Z) (render : Z -> string) :
  Datacube E = Ok () ->
  files w !! output_path (ID s) = Some lines ->
  index lines (-1) = Ok last_line ->
  split "," last_line = [last_date; lastObs] ->
  strptime E last_date = Ok dt ->
  load_masked E {| geopolygon := geometry s; time_range := None |} = Ok WOFL ->
  Forall (fun t => time t = Some (stamp t)) (List.filter retained WOFL) ->
  to_csv E (map stamp (List.filter retained WOFL))
    = Ok (unlines (map render (map stamp (List.filter retained WOFL)))) ->
  Forall (fun t => no_newline (render (stamp t)) = true) (List.filter retained WOFL) ->
  open_append E (output_path (ID s)) = None ->
  (forall k, writerow_fault E (output_path (ID s)) k = None) ->
  FindOutHowFullTheDamIs E s w
  = (appended (output_path (ID s)) lines
       (map (fun t => csv_row E (render (stamp t)) (MaskedWet t) (WaterPercent t))
            (List.filter retained WOFL))
       [ID s] w,
     Ok ()).
Proof.
  intros Hdc Hl Hlast Hsplit Hdt Hload Htimes Hcsv Hrender Hopen Hwrite.
  unfold FindOutHowFullTheDamIs.
  unfold mbind at 1 2 3 4 5 6 7, M_bind at 1 2 3 4 5 6 7, lift, print,
    find_lastline, try_except, mret, M_ret.
  rewrite Hdc. simpl. rewrite Hl, Hlast, Hsplit, Hdt, Hload, capacity_loop_empty.
  unfold filter_and_write. simpl.
  rewrite !select_retained.
  unfold mbind at 1 2 3 4, M_bind at 1 2 3 4, lift.
  rewrite (dropna_stamps stamp) by exact Htimes.
  rewrite Hcsv, split_unlines.
  2:{ rewrite !Forall_map. exact Hrender. }
  rewrite map_map, zip3_maps.
  destruct (map (fun x => render (stamp x)) (List.filter retained WOFL) ++ [EmptyString])
    as [|d DateList] eqn:HDateList.
  { now destruct (map (fun x => render (stamp x)) (List.filter retained WOFL)). }
  unfold open_a. rewrite Hopen.
  unfold mbind, M_bind. simpl. rewrite Hl. simpl.
  erewrite write_rows_no_fault; [| intros; apply Hwrite | simpl; apply lookup_insert_eq].
  unfold appended. simpl. rewrite insert_insert_eq, map_map. reflexivity.
Qed.



(** ** Pipeline B: season label *)
Section SeasonLabel.

Lemma str_slice_beyond (s : string) (a b : Z) :
  Z.of_nat (length (list_ascii_of_string s)) <= a -> 0 <= b ->
  str_slice s (Some a) (Some b) = EmptyString.
Proof.
  intros Ha Hb. unfold str_slice. rewrite slice_nonneg by lia.
  rewrite skipn_all2 by lia. now rewrite firstn_nil.
Qed.

Lemma zrange_In (count : nat) : forall start n,
  start <= n < start + Z.of_nat count -> In n (zrange start count).
Proof.
  induction count as [|count IH]; intros start n Hn; simpl; [lia|].
  destruct (Z.eq_dec start n); [now left | right; apply IH; lia].
Qed.

(** Checked by running [int] and [str] on every year of the range. *)
Lemma four_digit_years (n : Z) :
  1000 <= n <= 9998 ->
  int (str n) = Ok n
  /\ str_slice (str (n + 1)) (Some 2) None = SICA.two_digits ((n + 1) mod 100).
Proof.
  intros Hn.
  assert (Hall : forallb SICA.year_round_trip (zrange 1000 (Z.to_nat 8999)) = true)
    by (vm_compute; reflexivity).
  rewrite forallb_forall in Hall.
  assert (Hin : In n (zrange 1000 (Z.to_nat 8999))) by (apply zrange_In; lia).
  specialize (Hall n Hin). unfold SICA.year_round_trip in Hall.
  destruct (int (str n)) as [m|e]; [|discriminate].
  apply andb_true_iff in Hall as [Hm Hs].
  apply Z.eqb_eq in Hm. apply String.eqb_eq in Hs. now subst m.
Qed.

End SeasonLabel.

(** X19: with a season other than "Summer" and "Winter" the label cannot be
    computed for any file name: line 53 meets the unbound name [year]. *)
Theorem unknown_season_unbound (season tif : string) :
  season <> "Summer"%string -> season <> "Winter"%string ->
  SICA.year_label season tif = Raise UnboundLocalError.
Proof.
  intros Hs Hw. unfold SICA.year_label.
  apply String.eqb_neq in Hs. apply String.eqb_neq in Hw. now rewrite Hs, Hw.
Qed.

Lemma unknown_season_unbound_witness :
  SICA.year_label "Summmer" "ndvi_max_SAM_20101101.tif" = Raise UnboundLocalError.
Proof. apply unknown_season_unbound; discriminate. Defined.

(** X20: with season "Summer", a file name of at most 13 characters has no
    year at characters 13 to 16; [int] of the empty text raises [ValueError],
    so neither the label nor the output directory is computed. *)
Theorem summer_short_name (tif : string) :
  (length (list_ascii_of_string tif) <= 13)%nat ->
  SICA.year_label "Summer" tif = Raise ValueError
  /\ SICA.directory tif = Raise ValueError.
Proof.
  intros Hlen. unfold SICA.directory, SICA.year_label, SICA.season. simpl String.eqb.
  cbv iota. rewrite str_slice_beyond by lia. split; reflexivity.
Qed.

Lemma summer_short_name_witness :
  SICA.year_label "Summer" "ndvi_2010.tif" = Raise ValueError
  /\ SICA.directory "ndvi_2010.tif" = Raise ValueError.
Proof. apply summer_short_name. simpl. lia. Defined.

(** X21: with season "Summer" and any year from 1000 to 9998 written at
    characters 13 to 16 of the file name, the label is "Summer", the four
    digits of the year, an underscore and the last two digits of the
    following year. *)
Theorem summer_label_any_year (tif : string) (n : Z) :
  1000 <= n <= 9998 ->
  str_slice tif (Some 13) (Some 17) = str n ->
  SICA.year_label "Summer" tif
  = Ok ("Summer" ++ str n ++ "_" ++ SICA.two_digits ((n + 1) mod 100))%string.
Proof.
  intros Hn Hyear. destruct (four_digit_years n Hn) as (Hint & Hnext).
  unfold SICA.year_label. simpl String.eqb. cbv iota.
  rewrite Hyear, Hint. unfold mbind, result_bind. now rewrite Hnext.
Qed.

Lemma summer_label_any_year_witness :
  SICA.year_label "Summer" "ndvi_max_SAM_20991101.tif" = Ok "Summer2099_00"%string.
Proof.
  apply (summer_label_any_year "ndvi_max_SAM_20991101.tif" 2099); [lia | reflexivity].
Defined.

(** ** Pipeline B: classes and polygon filter *)
Section Classes.

(** The cascade of lines 84-88 as one decision on the mean. *)
Lemma threshold_Num (v : Q) :
  SICA.threshold (SICA.Num v)
  = if Qle_bool 0.8 v then SICA.Num 80
    else if Qle_bool 0.70 v then SICA.Num 70
    else if Qle_bool 0.60 v then SICA.Num 60
    else if Qle_bool 0.55 v then SICA.Num 55
    else SICA.nan.
Proof. destruct v as [p q]. threshold_cases. Qed.

Lemma Qle_bool_false (x y : Q) : Qle_bool x y = false <-> (y < x)%Q.
Proof.
  rewrite <- not_true_iff_false, Qle_bool_iff.
  split; [apply Qnot_le_lt | apply Qlt_not_le].
Qed.

Lemma threshold_alphabet (x : SICA.pixel) :
  In (SICA.threshold x)
     [SICA.Num 55; SICA.Num 60; SICA.Num 70; SICA.Num 80; SICA.nan].
Proof.
  destruct x as [v|]; [|simpl; tauto].
  rewrite threshold_Num.
  repeat match goal with |- context [Qle_bool ?a ?b] => destruct (Qle_bool a b) end;
    simpl; tauto.
Qed.

Lemma filter_map {X Y : Type} (p : Y -> bool) (g : X -> Y) (l : list X) :
  List.filter p (map g l) = map g (List.filter (fun x => p (g x)) l).
Proof.
  induction l as [|x l IH]; simpl; [reflexivity|].
  destruct (p (g x)); simpl; now rewrite IH.
Qed.

Lemma filter_twice {X : Type} (p q : X -> bool) (l : list X) :
  List.filter q (List.filter p l) = List.filter (fun x => p x && q x) l.
Proof.
  induction l as [|x l IH]; simpl; [reflexivity|].
  destruct (p x); simpl; [destruct (q x)|]; now rewrite IH.
Qed.

End Classes.

(** X22: the reclassified raster has the shape of the input raster, and each
    of its cells is one of 55, 60, 70, 80 or the no-data value, whatever the
    input cell was (no-data included). *)
Theorem multithreshold_alphabet (segment_means : list (list SICA.pixel)) :
  map (@length SICA.pixel) (SICA.multithreshold segment_means)
  = map (@length SICA.pixel) segment_means
  /\ forall row x, In row (SICA.multithreshold segment_means) -> In x row ->
       In x [SICA.Num 55; SICA.Num 60; SICA.Num 70; SICA.Num 80; SICA.nan].
Proof.
  unfold SICA.multithreshold. split.
  - rewrite map_map. apply map_ext. intros row. apply length_map.
  - intros row x Hrow Hx.
    apply in_map_iff in Hrow as (row0 & <- & _).
    apply in_map_iff in Hx as (x0 & <- & _). apply threshold_alphabet.
Qed.

Lemma multithreshold_alphabet_witness :
  In (SICA.Num 80) [SICA.Num 55; SICA.Num 60; SICA.Num 70; SICA.Num 80; SICA.nan].
Proof.
  apply (proj2 (multithreshold_alphabet [[SICA.Num 0.85; SICA.nan]])
           [SICA.Num 80; SICA.nan] (SICA.Num 80)); simpl; auto.
Defined.

(** X23: the classes can be read back: a mean is classified 80, 70, 60 or 55
    only if it lies in the band of that class, and becomes no-data only if it
    is below 0.55. *)
Theorem threshold_class_iff (v : Q) :
  (SICA.threshold (SICA.Num v) = SICA.Num 80 <-> (0.8 <= v)%Q)
  /\ (SICA.threshold (SICA.Num v) = SICA.Num 70 <-> (0.70 <= v < 0.8)%Q)
  /\ (SICA.threshold (SICA.Num v) = SICA.Num 60 <-> (0.60 <= v < 0.70)%Q)
  /\ (SICA.threshold (SICA.Num v) = SICA.Num 55 <-> (0.55 <= v < 0.60)%Q)
  /\ (SICA.threshold (SICA.Num v) = SICA.nan <-> (v < 0.55)%Q).
Proof.
  rewrite threshold_Num.
  destruct (Qle_bool 0.8 v) eqn:H80; [apply Qle_bool_iff in H80 | apply Qle_bool_false in H80];
  (destruct (Qle_bool 0.70 v) eqn:H70; [apply Qle_bool_iff in H70 | apply Qle_bool_false in H70]);
  (destruct (Qle_bool 0.60 v) eqn:H60; [apply Qle_bool_iff in H60 | apply Qle_bool_false in H60]);
  (destruct (Qle_bool 0.55 v) eqn:H55; [apply Qle_bool_iff in H55 | apply Qle_bool_false in H55]);
  repeat split; intros; try discriminate; try reflexivity; try lra.
Qed.

(** X24: the classification is monotone: when a mean has a class, every
    larger mean has a class too, and not a lower one. *)
Theorem threshold_monotone (v v' c : Q) :
  (v <= v')%Q ->
  SICA.threshold (SICA.Num v) = SICA.Num c ->
  exists c', SICA.threshold (SICA.Num v') = SICA.Num c' /\ (c <= c')%Q.
Proof.
  intros Hle. rewrite !threshold_Num.
  destruct (Qle_bool 0.8 v) eqn:H80; [apply Qle_bool_iff in H80 | apply Qle_bool_false in H80];
  (destruct (Qle_bool 0.70 v) eqn:H70; [apply Qle_bool_iff in H70 | apply Qle_bool_false in H70]);
  (destruct (Qle_bool 0.60 v) eqn:H60; [apply Qle_bool_iff in H60 | apply Qle_bool_false in H60]);
  (destruct (Qle_bool 0.55 v) eqn:H55; [apply Qle_bool_iff in H55 | apply Qle_bool_false in H55]);
  intros [= <-];
  (destruct (Qle_bool 0.8 v') eqn:H80'; [apply Qle_bool_iff in H80' | apply Qle_bool_false in H80']);
  (destruct (Qle_bool 0.70 v') eqn:H70'; [apply Qle_bool_iff in H70' | apply Qle_bool_false in H70']);
  (destruct (Qle_bool 0.60 v') eqn:H60'; [apply Qle_bool_iff in H60' | apply Qle_bool_false in H60']);
  (destruct (Qle_bool 0.55 v') eqn:H55'; [apply Qle_bool_iff in H55' | apply Qle_bool_false in H55']);
  try lra; eexists; (split; [reflexivity | lra]).
Qed.

Lemma threshold_monotone_witness :
  exists c', SICA.threshold (SICA.Num 0.75) = SICA.Num c' /\ (60 <= c')%Q.
Proof. apply (threshold_monotone 0.62 0.75 60); [discriminate | reflexivity]. Defined.

(** X25: the reclassification is not meant to run twice: applied to its own
    output it turns every class into 80 and keeps no-data. *)
Theorem threshold_twice (x : SICA.pixel) :
  SICA.threshold (SICA.threshold x)
  = match SICA.threshold x with
    | SICA.Num _ => SICA.Num 80
    | SICA.nan => SICA.nan
    end.
Proof.
  pose proof (threshold_alphabet x) as Hx. simpl in Hx.
  destruct Hx as [<-|[<-|[<-|[<-|[<-|[]]]]]]; reflexivity.
Qed.

(** X26: the three selections of lines 108-112 act as one test per feature:
    the final rows are the features that pass all three tests, in the order
    of the polygonizer's output and as often as they occur there, each with
    its geometry area in the column ['area']. *)
Theorem filter_polygons_single_pass (polygons : list SICA.feature) :
  SICA.filter_polygons polygons
  = map (fun f => {| SICA.feat := f; SICA.area := SICA.geometry_area f |})
        (List.filter SICA.keeps polygons).
Proof.
  unfold SICA.filter_polygons. rewrite !filter_map, !filter_twice.
  f_equal. apply filter_ext. intros f. unfold SICA.keeps. simpl.
  now rewrite andb_assoc.
Qed.



(** X28: the script does not run twice on the same polygon: after a run
    without failures that appended at least one row, the last line of the
    polygon's file is a row of this script; when that row does not hold
    exactly one comma (it has three fields), the next run of the polygon
    raises [ValueError] at line 85 and changes no file. *)
Theorem second_run_raises (E : Env) (s : shape) (w : world)
    (lines : list string) (last_line last_date lastObs : string)
    (dt : datetime) (WOFL : list timestep)
    (stamp : timestep -> Z) (render : Z -> string) :
  Datacube E = Ok () ->
  files w !! output_path (ID s) = Some lines ->
  index lines (-1) = Ok last_line ->
  split "," last_line = [last_date; lastObs] ->
  strptime E last_date = Ok dt ->
  load_masked E {| geopolygon := geometry s; time_range := None |} = Ok WOFL ->
  Forall (fun t => time t = Some (stamp t)) (List.filter retained WOFL) ->
  to_csv E (map stamp (List.filter retained WOFL))
    = Ok (unlines (map render (map stamp (List.filter retained WOFL)))) ->
  Forall (fun t => no_newline (render (stamp t)) = true) (List.filter retained WOFL) ->
  open_append E (output_path (ID s)) = None ->
  (forall k, writerow_fault E (output_path (ID s)) k = None) ->
  List.filter retained WOFL <> [] ->
  Forall (fun t =>
            count_occ ascii_dec
              (list_ascii_of_string
                 (csv_row E (render (stamp t)) (MaskedWet t) (WaterPercent t)))
              ","%char <> 1%nat)
         (List.filter retained WOFL) ->
  let w1 := fst (FindOutHowFullTheDamIs E s w) in
  FindOutHowFullTheDamIs E s w1
  = ({| files := files w1; stdout := stdout w1 ++ [ID s] |}, Raise ValueError).
Proof.
  intros Hdc Hl Hlast Hsplit Hdt Hload Htimes Hcsv Hrender Hopen Hwrite Hne Hcommas w1.
  subst w1.
  rewrite (FindOut_clean_run E s w lines last_line last_date lastObs dt WOFL stamp render)
    by assumption.
  simpl fst.
  destruct (exists_last Hne) as (R & t & HR). rewrite HR in *.
  apply Forall_app in Hcommas as (_ & Hlast_row). inversion_clear Hlast_row as [|? ? Ht _].
  rewrite map_app. simpl map.
  eapply FindOut_bad_checkpoint; [exact Hdc | | | exact Ht].
  - unfold appended. simpl. rewrite lookup_insert_eq, app_assoc. reflexivity.
  - apply index_last_line.
Qed.

Lemma second_run_raises_witness :
  let w1 := fst (FindOutHowFullTheDamIs Fixture.env Fixture.dam7 Fixture.checkpointed) in
  FindOutHowFullTheDamIs Fixture.env Fixture.dam7 w1
  = ({| files := files w1; stdout := stdout w1 ++ ["7"]%string |}, Raise ValueError).
Proof.
  apply (second_run_raises Fixture.env Fixture.dam7 Fixture.checkpointed
           ["2018-08-01 00:00:00.000000,75.0"]%string
           "2018-08-01 00:00:00.000000,75.0" "2018-08-01 00:00:00.000000" "75.0"
           {| year := 2018; month := 8; day := 1; hour := 0; minute := 0;
              second := 0; microsecond := 0 |}
           Fixture.slices Fixture.stamp str);
    try reflexivity; try discriminate; repeat constructor; vm_compute; lia.
Defined.
